(** * potpie: agent orchestration and the streaming capture bridge

    A shallow embedding of
      - app/modules/intelligence/agents/agents/low_level_design_agent.py
      - app/modules/intelligence/agents/agents/unit_test_agent.py
      - app/modules/intelligence/provider/provider_router.py
    and the properties of these modules that the specification states.

    Calls into crewai, pydantic and the provider service are kept as
    records of their arguments and logged in call order; the executor, the
    builtin [int] on strings, the task instruction texts and the provider
    controller are parameters of the sections that use them, and what the
    framework decides when it validates an integer field is the class
    [Framework]. *)

From Stdlib Require Import ZArith NArith Lia List String Ascii.
From stdpp Require Import base option list sorting gmap.

Local Open Scope N_scope.
Local Open Scope nat_scope.

(** ** Python strings

  A Python [str] is a sequence of Unicode code points; a code point is a
  natural number.  String literals of the source are written [lit "..."]. *)

Abbreviation str := (list N).

Definition lit (s : string) : str :=
  (λ a, N_of_ascii a) <$> list_ascii_of_string s.

Arguments lit : simpl never.

Definition LF : N := 10%N.
Definition CR : N := 13%N.
Definition ESC : N := 27%N.

Module PyStr.

(** [s.startswith(p)] *)
Fixpoint startswith (s p : str) : bool :=
  match p, s with
  | [], _ => true
  | _ :: _, [] => false
  | a :: p', b :: s' => (a =? b)%N && startswith s' p'
  end.

(** [s.endswith(p)] *)
Definition endswith (s p : str) : bool :=
  (length p <=? length s) && startswith (drop (length s - length p) s) p.

(** [p in s] *)
Fixpoint contains (p s : str) : bool :=
  startswith s p ||
  match s with
  | [] => false
  | _ :: s' => contains p s'
  end.

(** [s[:-k]] for a positive literal [k]: everything but the last [k]
    code points, and the empty string when [s] is shorter than [k]. *)
Definition drop_last (k : nat) (s : str) : str := take (length s - k) s.

(** Truth value of a string: [not s] holds of the empty string only. *)
Definition truthy (s : str) : bool :=
  match s with [] => false | _ :: _ => true end.

(** [p] occurs in [s] as a contiguous block. *)
Definition occurs_in (p s : str) : Prop := ∃ l r, s = l ++ p ++ r.

End PyStr.

(** ** The streaming capture bridge: [LowLevelDesignAgent.run]

  The executor's standard output is redirected into the write end of a
  pipe; [run] iterates over the lines of the read end.  The loop is
  modelled on the list of lines that the iteration delivers; what it
  yields to the caller is accumulated in order. *)

Module Bridge.
Import PyStr.

(** The literal ["## Final Answer:"]. *)
Definition marker : str := lit "## Final Answer:".

(** The literal ["\x1b[00m\n"]. *)
Definition reset_nl : str := ESC :: lit "[00m" ++ [LF].

(** The value yielded for a line of the final section. *)
Definition chunk (line : str) : str :=
  if endswith line reset_nl then drop_last 6 line else line.

Record loop_state := LoopState {
  final_answer_streaming : bool;
  yielded : list str
}.

Definition init : loop_state :=
  {| final_answer_streaming := false; yielded := [] |}.

(** One pass through the body of [async for line in read_file], for a
    [line] that did not take the [break]. *)
Definition body (st : loop_state) (line : str) : loop_state :=
  let st1 :=
    if final_answer_streaming st
    then {| final_answer_streaming := final_answer_streaming st;
            yielded := yielded st ++ [chunk line] |}
    else st in
  if contains marker line
  then {| final_answer_streaming := true; yielded := yielded st1 |}
  else st1.

Fixpoint loop (st : loop_state) (lines : list str) : loop_state :=
  match lines with
  | [] => st
  | line :: rest =>
      if negb (truthy line) then st (* break *)
      else loop (body st line) rest
  end.

(** The chunks yielded by [run], in order. *)
Definition run (lines : list str) : list str := yielded (loop init lines).

(** What the specification asks of a forwarded line: the line itself, or
    the line without its trailing [reset_nl]. *)
Definition forwarded (line out : str) : Prop :=
  (∃ text, line = text ++ reset_nl ∧ out = text) ∨
  (¬ reset_nl `suffix_of` line ∧ out = line).

(** The four writes of the synthetic producer of the specification. *)
Definition synthetic_writes : list str :=
  [ lit "part1" ++ [LF];
    lit "## Final Answer:" ++ [LF];
    lit "hello" ++ reset_nl;
    lit "world" ++ [LF] ].

(** *** The pipe

    The producer writes text to the write end, opened in text mode; the
    consumer opens the read end in text mode with the default newline
    handling, which turns ["\r\n"] and a lone ["\r"] into ["\n"], and
    iterates over lines: each ends after its ["\n"], the last one at the
    end of the data.  An iteration never delivers an empty line. *)

Fixpoint universal_newlines (data : str) : str :=
  match data with
  | [] => []
  | c :: rest =>
      if (c =? CR)%N then
        LF :: match rest with
              | d :: rest' =>
                  if (d =? LF)%N then universal_newlines rest'
                  else universal_newlines rest
              | [] => []
              end
      else c :: universal_newlines rest
  end.

Fixpoint split_lines (cur : str) (data : str) : list str :=
  match data with
  | [] => if truthy cur then [cur] else []
  | c :: rest =>
      if (c =? LF)%N then (cur ++ [c]) :: split_lines [] rest
      else split_lines (cur ++ [c]) rest
  end.

Definition pipe_lines (writes : list str) : list str :=
  split_lines [] (universal_newlines (concat writes)).

End Bridge.

(** ** Python values, exceptions and the process environment *)

Module Py.

(** The values that [os.getenv(name, default)] produces in these modules:
    the variable's text, or the integer default. *)
Inductive value :=
| PInt (z : Z)
| PStr (s : str).

Definition is_int (v : value) : bool :=
  match v with PInt _ => true | PStr _ => false end.

Inductive exn :=
| ValueError
| ValidationError
| KeyError (key : str)
| Raised (what : str).

(** [os.environ] *)
Abbreviation environ := (gmap str str).

(** [os.getenv(name)] *)
Definition getenv (env : environ) (name : str) : option str := env !! name.

(** [os.getenv(name, default)] *)
Definition getenv_default (env : environ) (name : str) (default : value) : value :=
  match env !! name with
  | Some s => PStr s
  | None => default
  end.

(** Truth value of [os.getenv(name)]: [None] and [""] are false. *)
Definition truthy (o : option str) : bool :=
  match o with
  | Some s => PyStr.truthy s
  | None => false
  end.

(** The variable is set, and to something other than [""]. *)
Definition set_nonempty (env : environ) (name : str) : Prop :=
  ∃ v, env !! name = Some v ∧ v ≠ [].

(** Three environments: one where the web-extraction key is set to the
    empty string, one with both credentials, one with [MAX_ITER=20]. *)
Definition empty_key_env : environ :=
  {[ lit "FIRECRAWL_API_KEY" := [] ]}.

Definition credentials_env : environ :=
  <[ lit "GITHUB_APP_ID" := lit "12345" ]>
    {[ lit "FIRECRAWL_API_KEY" := lit "fc-key" ]}.

Definition max_iter_20_env : environ :=
  {[ lit "MAX_ITER" := lit "20" ]}.

(** An environment whose [MAX_ITER] is no number. *)
Definition bad_max_iter_env : environ :=
  {[ lit "MAX_ITER" := lit "abc" ]}.

(** A text of decimal digits as the number it writes; [None] for the
    empty text and for a text with anything else in it. *)
Fixpoint digits_value (acc : Z) (s : str) : option Z :=
  match s with
  | [] => Some acc
  | c :: rest =>
      if ((48 <=? c) && (c <=? 57))%N
      then digits_value (10 * acc + Z.of_N (c - 48)) rest
      else None
  end.

Definition decimal (s : str) : option Z :=
  match s with
  | [] => None
  | _ :: _ => digits_value 0 s
  end.

(** Computations that call into the framework: the calls made so far, in
    order, and an exception or a result. *)
Definition M (E A : Type) : Type := list E * (exn + A).

#[export] Instance M_ret {E} : MRet (M E) := λ A a, ([], inr a).

#[export] Instance M_bind {E} : MBind (M E) := λ A B k m,
  match m with
  | (calls, inl x) => (calls, inl x)
  | (calls, inr a) => (calls ++ (k a).1, (k a).2)
  end.

#[export] Instance M_fmap {E} : FMap (M E) := λ A B f m,
  match m with
  | (calls, inl x) => (calls, inl x)
  | (calls, inr a) => (calls, inr (f a))
  end.

Definition emit {E} (e : E) : M E unit := ([e], inr tt).

Definition raise {E A} (x : exn) : M E A := ([], inl x).

Definition calls {E A} (m : M E A) : list E := m.1.

Definition outcome {E A} (m : M E A) : exn + A := m.2.

End Py.

(** ** The framework objects the agents are built from *)

(** What the framework decides on its own: how pydantic reads a text that
    is given for an [int] field ([None] when it rejects the text), and the
    value crewai gives to [max_iter] when [Agent(...)] is called without
    one. *)
Class Framework := {
  int_field_of_str : str → option Z;
  default_max_iter : Z
}.

(** A framework that reads plain decimal texts, for concrete cases. *)
Definition plain_framework : Framework :=
  {| int_field_of_str := Py.decimal; default_max_iter := 25 |}.

Module Crewai.
Import Py.

Inductive tool_kind :=
| GetCodeFromNodeId
| GetCodeFromProbableNodeName
| GetNodesFromTags
| AskKnowledgeGraphQueries
| GetCodeFileStructure
| GetNodeNeighboursFromNodeId
| WebpageExtractor
| Github.

#[export] Instance tool_kind_eq_dec : EqDecision tool_kind.
Proof. solve_decision. Defined.

(** The pydantic models declared in the two agent modules. *)
Inductive pydantic_model :=
| DesignStep
| LowLevelDesignPlan
| TestAgentResponse.

Inductive process := Sequential.

Inductive agent_type := CREWAI.

Section Objects.
Context {Db Llm : Type} {framework : Framework}.

(** A tool adapter: which tool it is and what it was bound to. *)
Record tool := Tool {
  kind : tool_kind;
  bound_db : Db;
  bound_user : option str
}.

(** The keyword arguments of [Agent(...)], where [max_iter] is [None] when
    the call does not pass it; and the agent that [Agent(...)] returns,
    where [max_iter] is the integer the framework has settled on. *)
Record Agent := {
  role : str;
  goal : str;
  backstory : str;
  tools : list tool;
  allow_delegation : bool;
  agent_verbose : bool;
  agent_llm : Llm;
  max_iter : option value
}.

(** The keyword arguments of [Task(...)]; [context], [output_pydantic] and
    [async_execution] are [None] when the call does not pass them. *)
#[warnings="-register-all"] Inductive Task := mkTask {
  description : str;
  agent : Agent;
  expected_output : str;
  context : option (list Task);
  output_pydantic : option pydantic_model;
  async_execution : option bool
}.

Record Crew := {
  agents : list Agent;
  tasks : list Task;
  crew_process : process;
  crew_verbose : bool
}.

(** The calls that leave the orchestrating code. *)
Inductive call :=
| ProviderServiceCreated (sql_db : Db) (user_id : str)
| LargeLlmRequested (agent_type : agent_type)
| ToolBound (t : tool)
| AgentConstructed (a : Agent)
| TaskConstructed (t : Task)
| CrewConstructed (c : Crew)
| Kickoff (c : Crew)
| ToolInvoked (t : tool) (input : str).

Definition is_invocation (c : call) : bool :=
  match c with
  | Kickoff _ | ToolInvoked _ _ => true
  | _ => false
  end.

(** Calls that neither start the executor nor invoke a tool. *)
Definition setup_only (cs : list call) : Prop :=
  Forall (λ c, is_invocation c = false) cs.

Definition bind_tool (k : tool_kind) (sql_db : Db) (user_id : option str)
  : M call tool :=
  let t := Tool k sql_db user_id in
  emit (ToolBound t) ;; mret t.

(** The validation of [max_iter], an [int] field with a default. *)
Definition validate_max_iter (given : option value) : option Z :=
  match given with
  | None => Some default_max_iter
  | Some (PInt z) => Some z
  | Some (PStr s) => int_field_of_str s
  end.

(** [Agent(...)]: the arguments are validated; the agent carries the
    validated budget, or [ValidationError] is raised and no agent exists. *)
Definition new_agent (a : Agent) : M call Agent :=
  match validate_max_iter (max_iter a) with
  | Some z =>
      let constructed :=
        {| role := role a; goal := goal a; backstory := backstory a;
           tools := tools a; allow_delegation := allow_delegation a;
           agent_verbose := agent_verbose a; agent_llm := agent_llm a;
           max_iter := Some (PInt z) |} in
      emit (AgentConstructed constructed) ;; mret constructed
  | None => raise ValidationError
  end.

Definition new_task (t : Task) : M call Task :=
  emit (TaskConstructed t) ;; mret t.

Definition new_crew (c : Crew) : M call Crew :=
  emit (CrewConstructed c) ;; mret c.

Definition has_kind (k : tool_kind) (ts : list tool) : Prop :=
  k ∈ kind <$> ts.

End Objects.

Arguments tool : clear implicits.
Arguments Agent : clear implicits.
Arguments Task : clear implicits.
Arguments Crew : clear implicits.
Arguments call : clear implicits.

End Crewai.

(** ** low_level_design_agent.py *)

Module LowLevelDesignAgent.
Import Py Crewai.

Section Agent.
Context {Db Llm : Type} {framework : Framework}.

(** The builtin [int] on a string: [None] when it raises [ValueError]. *)
Variable int_of_str : str → option Z.

(** The two task instructions, as functions of [project_id] and
    [functional_requirements]. *)
Variable analyze_codebase_description : str → str → str.
Variable create_design_plan_description : str → str → str.

(** What the executor prints to standard output while it runs a crew. *)
Variable stdout_of : Crew Db Llm → list str.

(** [ProviderService(sql_db, user_id).get_large_llm(agent_type)] *)
Variable get_large_llm : Db → str → agent_type → Llm.

Abbreviation M := (Py.M (call Db Llm)).

(** [int(v)] *)
Definition py_int (v : value) : M Z :=
  match v with
  | PInt z => mret z
  | PStr s =>
      match int_of_str s with
      | Some z => mret z
      | None => raise ValueError
      end
  end.

(** What [int(os.getenv("MAX_ITER", 10))] evaluates to; [None] when it
    raises. *)
Definition max_iter_setting (env : environ) : option Z :=
  match env !! lit "MAX_ITER" with
  | Some s => int_of_str s
  | None => Some 10%Z
  end.

(** The attributes of a [LowLevelDesignAgent]; the two optional tools are
    [None] when the attribute was never assigned. *)
Record self_t := {
  openai_api_key : option str;
  max_iter : Z;
  sql_db : Db;
  llm : Llm;
  user_id : str;
  get_code_from_node_id : tool Db;
  get_code_from_probable_node_name : tool Db;
  get_nodes_from_tags : tool Db;
  ask_knowledge_graph_queries : tool Db;
  get_code_file_structure : tool Db;
  get_node_neighbours_from_node_id : tool Db;
  webpage_extractor_tool : option (tool Db);
  github_tool : option (tool Db)
}.

(** [LowLevelDesignAgent.__init__] *)
Definition init (env : environ) (sql_db : Db) (llm : Llm) (user_id : str)
  : M self_t :=
  let openai_api_key := getenv env (lit "OPENAI_API_KEY") in
  max_iter ← py_int (getenv_default env (lit "MAX_ITER") (PInt 10));
  get_code_from_node_id ← bind_tool GetCodeFromNodeId sql_db (Some user_id);
  get_code_from_probable_node_name ←
    bind_tool GetCodeFromProbableNodeName sql_db (Some user_id);
  get_nodes_from_tags ← bind_tool GetNodesFromTags sql_db (Some user_id);
  ask_knowledge_graph_queries ←
    bind_tool AskKnowledgeGraphQueries sql_db (Some user_id);
  get_code_file_structure ← bind_tool GetCodeFileStructure sql_db None;
  get_node_neighbours_from_node_id ←
    bind_tool GetNodeNeighboursFromNodeId sql_db None;
  webpage_extractor_tool ←
    (if truthy (getenv env (lit "FIRECRAWL_API_KEY"))
     then Some <$> bind_tool WebpageExtractor sql_db (Some user_id)
     else mret None);
  github_tool ←
    (if truthy (getenv env (lit "GITHUB_APP_ID"))
     then Some <$> bind_tool Github sql_db (Some user_id)
     else mret None);
  mret {| openai_api_key := openai_api_key;
          max_iter := max_iter;
          sql_db := sql_db;
          llm := llm;
          user_id := user_id;
          get_code_from_node_id := get_code_from_node_id;
          get_code_from_probable_node_name := get_code_from_probable_node_name;
          get_nodes_from_tags := get_nodes_from_tags;
          ask_knowledge_graph_queries := ask_knowledge_graph_queries;
          get_code_file_structure := get_code_file_structure;
          get_node_neighbours_from_node_id := get_node_neighbours_from_node_id;
          webpage_extractor_tool := webpage_extractor_tool;
          github_tool := github_tool |}.

(** [[x] if hasattr(self, name) else []] *)
Definition if_hasattr (attr : option (tool Db)) : list (tool Db) :=
  match attr with
  | Some t => [t]
  | None => []
  end.

(** [LowLevelDesignAgent.create_agents] *)
Definition create_agents (self : self_t) : M (Agent Db Llm * Agent Db Llm) :=
  codebase_analyst ← new_agent
    {| role := lit "Codebase Analyst";
       goal := lit "Analyze the existing codebase and provide insights on the current structure and patterns";
       backstory :=
         lit "You are an expert in analyzing complex codebases. Your task is to understand the" ++ [LF] ++
         lit "            current project structure, identify key components, and provide insights that will help in" ++ [LF] ++
         lit "            planning new feature implementations.";
       tools :=
         [ get_nodes_from_tags self;
           ask_knowledge_graph_queries self;
           get_code_from_node_id self;
           get_code_from_probable_node_name self;
           get_code_file_structure self ]
         ++ if_hasattr (webpage_extractor_tool self)
         ++ if_hasattr (github_tool self);
       allow_delegation := false;
       agent_verbose := true;
       agent_llm := llm self;
       Crewai.max_iter := Some (PInt (max_iter self)) |};
  design_planner ← new_agent
    {| role := lit "Design Planner";
       goal := lit "Create a detailed low-level design plan for implementing new features";
       backstory :=
         lit "You are a senior software architect specializing in creating detailed," ++ [LF] ++
         lit "            actionable design plans. Your expertise lies in breaking down complex features into" ++ [LF] ++
         lit "            manageable steps and providing clear guidance for implementation.";
       tools :=
         [ get_nodes_from_tags self;
           ask_knowledge_graph_queries self;
           get_code_from_node_id self;
           get_code_from_probable_node_name self;
           get_code_file_structure self;
           get_node_neighbours_from_node_id self ];
       allow_delegation := true;
       agent_verbose := true;
       agent_llm := llm self;
       Crewai.max_iter := None |};
  mret (codebase_analyst, design_planner).

(** [LowLevelDesignAgent.create_tasks] *)
Definition create_tasks (self : self_t)
    (functional_requirements project_id : str)
    (codebase_analyst design_planner : Agent Db Llm)
  : M (list (Task Db Llm)) :=
  analyze_codebase_task ← new_task
    {| description :=
         analyze_codebase_description project_id functional_requirements;
       agent := codebase_analyst;
       expected_output := lit "Codebase analysis report with insights on project structure and patterns";
       context := None;
       output_pydantic := None;
       async_execution := None |};
  create_design_plan_task ← new_task
    {| description :=
         create_design_plan_description project_id functional_requirements;
       agent := design_planner;
       expected_output := lit "Low-level design plan for implementing the new feature";
       context := Some [analyze_codebase_task];
       output_pydantic := None;
       async_execution := None |};
  mret [analyze_codebase_task; create_design_plan_task].

(** [LowLevelDesignAgent.run]: the agents and tasks are built, the crew is
    started with its standard output going into the pipe, and the lines
    read from the pipe go through the loop of [Bridge.run]. *)
Definition run (self : self_t) (functional_requirements project_id : str)
  : M (list str) :=
  '(codebase_analyst, design_planner) ← create_agents self;
  tasks ← create_tasks self functional_requirements project_id
            codebase_analyst design_planner;
  crew ← new_crew
    {| agents := [codebase_analyst; design_planner];
       Crewai.tasks := tasks;
       crew_process := Sequential;
       crew_verbose := true |};
  emit (Kickoff crew) ;;
  mret (Bridge.run (Bridge.pipe_lines (stdout_of crew))).

(** [create_low_level_design_agent] *)
Definition create_low_level_design_agent (env : environ)
    (functional_requirements project_id : str)
    (sql_db : Db) (llm : Llm) (user_id : str)
  : M (list str) :=
  crew_ai_llm ←
    (emit (ProviderServiceCreated sql_db user_id) ;;
     emit (LargeLlmRequested CREWAI) ;;
     mret (get_large_llm sql_db user_id CREWAI));
  design_agent ← init env sql_db crew_ai_llm user_id;
  run design_agent functional_requirements project_id.

End Agent.

End LowLevelDesignAgent.

(** ** unit_test_agent.py *)

Module UnitTestAgent.
Import Py Crewai.

(** [sep.join(parts)] *)
Fixpoint join (sep : str) (parts : list str) : str :=
  match parts with
  | [] => []
  | [p] => p
  | p :: rest => p ++ sep ++ join sep rest
  end.

(** What [kickoff_unit_test_agent] returns: a dictionary of its own, or
    whatever the executor returned. *)
Inductive returned (R : Type) :=
| Dict (d : gmap str str)
| Output (r : R).

Arguments Dict {R} d.
Arguments Output {R} r.

(** The text under the key ["error"] of the precondition payload. *)
Definition no_node_message : str :=
  lit "No function name is provided by the user. The agent cannot generate test plan or test code without specific class or function being selected by the user. Request the user to use the '@ followed by file or function name' feature to link individual functions to the message. ".

Section Agent.
Context {Db Llm NodeContext Turn R : Type} {framework : Framework}.

(** [node.node_id] *)
Variable node_id : NodeContext → str.

(** The task instruction, as a function of the chat history, the joined
    node ids, [project_id], [self.max_iterations] and [query]. *)
Variable unit_test_description : list Turn → str → str → value → str → str.

(** [ProviderService(sql_db, user_id).get_large_llm(agent_type)] *)
Variable get_large_llm : Db → str → agent_type → Llm.

(** [crew.kickoff_async()]: the executor, with the tool calls it makes and
    the result it returns or the exception it raises. *)
Variable kickoff_async : Crew Db Llm → Py.M (call Db Llm) R.

Abbreviation M := (Py.M (call Db Llm)).

(** The attributes of a [UnitTestAgent]. *)
Record self_t := {
  openai_api_key : option str;
  max_iterations : value;
  sql_db : Db;
  llm : Llm;
  user_id : str;
  get_code_from_node_id : tool Db;
  get_code_from_probable_node_name : tool Db;
  webpage_extractor_tool : option (tool Db);
  github_tool : option (tool Db)
}.

(** [UnitTestAgent.__init__] *)
Definition init (env : environ) (sql_db : Db) (llm : Llm) (user_id : str)
  : M self_t :=
  let openai_api_key := getenv env (lit "OPENAI_API_KEY") in
  let max_iterations := getenv_default env (lit "MAX_ITER") (PInt 15) in
  get_code_from_node_id ← bind_tool GetCodeFromNodeId sql_db (Some user_id);
  get_code_from_probable_node_name ←
    bind_tool GetCodeFromProbableNodeName sql_db (Some user_id);
  webpage_extractor_tool ←
    (if truthy (getenv env (lit "FIRECRAWL_API_KEY"))
     then Some <$> bind_tool WebpageExtractor sql_db (Some user_id)
     else mret None);
  github_tool ←
    (if truthy (getenv env (lit "GITHUB_APP_ID"))
     then Some <$> bind_tool Github sql_db (Some user_id)
     else mret None);
  mret {| openai_api_key := openai_api_key;
          max_iterations := max_iterations;
          sql_db := sql_db;
          llm := llm;
          user_id := user_id;
          get_code_from_node_id := get_code_from_node_id;
          get_code_from_probable_node_name := get_code_from_probable_node_name;
          webpage_extractor_tool := webpage_extractor_tool;
          github_tool := github_tool |}.

(** What [Agent(...)] makes of [max_iter=os.getenv("MAX_ITER", 15)];
    [None] when its validation raises. *)
Definition max_iter_setting (env : environ) : option Z :=
  validate_max_iter (Some (getenv_default env (lit "MAX_ITER") (PInt 15))).

(** [[x] if hasattr(self, name) else []] *)
Definition if_hasattr (attr : option (tool Db)) : list (tool Db) :=
  match attr with
  | Some t => [t]
  | None => []
  end.

(** [UnitTestAgent.create_agents] *)
Definition create_agents (self : self_t) : M (Agent Db Llm) :=
  unit_test_agent ← new_agent
    {| role := lit "Test Plan and Unit Test Expert";
       goal := lit "Create test plans and write unit tests based on user requirements";
       backstory := lit "You are a seasoned AI test engineer specializing in creating robust test plans and unit tests. You aim to assist users effectively in generating and refining test plans and unit tests, ensuring they are comprehensive and tailored to the user's project requirements.";
       tools :=
         [ get_code_from_node_id self;
           get_code_from_probable_node_name self ]
         ++ if_hasattr (webpage_extractor_tool self)
         ++ if_hasattr (github_tool self);
       allow_delegation := false;
       agent_verbose := true;
       agent_llm := llm self;
       max_iter := Some (max_iterations self) |};
  mret unit_test_agent.

(** [UnitTestAgent.create_tasks] *)
Definition create_tasks (self : self_t) (node_ids : list NodeContext)
    (project_id query : str) (history : list Turn)
    (unit_test_agent : Agent Db Llm)
  : M (Task Db Llm) :=
  let node_ids_list := node_id <$> node_ids in
  unit_test_task ← new_task
    {| description :=
         unit_test_description history (join (lit ", ") node_ids_list)
           project_id (max_iterations self) query;
       expected_output := lit "Outline the test plan and write unit tests for each node based on the test plan.";
       agent := unit_test_agent;
       context := None;
       output_pydantic := Some TestAgentResponse;
       async_execution := Some true |};
  mret unit_test_task.

(** [UnitTestAgent.run] *)
Definition run (self : self_t) (project_id : str)
    (node_ids : list NodeContext) (query : str) (chat_history : list Turn)
  : M R :=
  unit_test_agent ← create_agents self;
  unit_test_task ← create_tasks self node_ids project_id query chat_history
                     unit_test_agent;
  crew ← new_crew
    {| agents := [unit_test_agent];
       tasks := [unit_test_task];
       crew_process := Sequential;
       crew_verbose := true |};
  result ← (emit (Kickoff crew) ;; kickoff_async crew);
  mret result.

(** [not node_ids] *)
Definition is_empty (node_ids : list NodeContext) : bool :=
  match node_ids with [] => true | _ :: _ => false end.

(** [kickoff_unit_test_agent] *)
Definition kickoff_unit_test_agent (env : environ)
    (query : str) (chat_history : list Turn) (project_id : str)
    (node_ids : list NodeContext) (sql_db : Db) (llm : Llm) (user_id : str)
  : M (returned R) :=
  if is_empty node_ids then
    mret (Dict {[ lit "error" := no_node_message ]})
  else
    crew_ai_llm ←
      (emit (ProviderServiceCreated sql_db user_id) ;;
       emit (LargeLlmRequested CREWAI) ;;
       mret (get_large_llm sql_db user_id CREWAI));
    unit_test_agent ← init env sql_db crew_ai_llm user_id;
    result ← run unit_test_agent project_id node_ids query chat_history;
    mret (Output result).

End Agent.

(** An executor that makes no call and returns at once, for concrete
    cases. *)
Definition idle_executor {Db Llm} (crew : Crew Db Llm)
  : Py.M (call Db Llm) unit :=
  ([], inr tt).

End UnitTestAgent.

(** ** The pydantic models of low_level_design_agent.py

    [DesignStep] and [LowLevelDesignPlan] declare required fields and their
    types, and nothing else: no validator, no constraint on a field.
    Validation is modelled on JSON; numbers are integers (numbers with a
    fraction or an exponent are floating point and left out).  A value is
    accepted for a field when it has the declared type, or, for an [int]
    field, when the framework reads it as an integer. *)

Module Schema.

#[warnings="-register-all"] Inductive json :=
| JNull
| JBool (b : bool)
| JInt (z : Z)
| JStr (s : str)
| JList (items : list json)
| JObj (items : list (str * json)).

Fixpoint str_eqb (a b : str) : bool :=
  match a, b with
  | [], [] => true
  | x :: a', y :: b' => (x =? y)%N && str_eqb a' b'
  | _, _ => false
  end.

(** The value under [key] in an object, the last one when the key is
    repeated; [None] when the key is missing. *)
Fixpoint dict_get (key : str) (items : list (str * json)) : option json :=
  match items with
  | [] => None
  | (k, v) :: rest =>
      match dict_get key rest with
      | Some later => Some later
      | None => if str_eqb k key then Some v else None
      end
  end.

Record DesignStep := {
  step_number : Z;
  description : str;
  relevant_files : list str;
  code_changes : list (str * str)
}.

Record LowLevelDesignPlan := {
  feature_name : str;
  overview : str;
  design_steps : list DesignStep;
  potential_challenges : list str
}.

Section Validation.
Context {framework : Framework}.

(** [int]: an integer, a boolean as 0 or 1, or a text that the framework
    reads as an integer. *)
Definition as_int (j : json) : option Z :=
  match j with
  | JInt z => Some z
  | JBool b => Some (Z.b2z b)
  | JStr s => int_field_of_str s
  | _ => None
  end.

(** [str] *)
Definition as_str (j : json) : option str :=
  match j with JStr s => Some s | _ => None end.

(** [List[T]] *)
Definition as_list {A} (item : json → option A) (j : json) : option (list A) :=
  match j with JList items => mapM item items | _ => None end.

(** [Dict[str, str]] *)
Definition as_str_dict (j : json) : option (list (str * str)) :=
  match j with
  | JObj items => mapM (λ kv, s ← as_str kv.2; Some (kv.1, s)) items
  | _ => None
  end.

(** A required field, [Field(...)], of the given type. *)
Definition field {A} (name : str) (type : json → option A)
    (items : list (str * json)) : option A :=
  dict_get name items ≫= type.

(** Validation against [DesignStep]. *)
Definition validate_step (j : json) : option DesignStep :=
  match j with
  | JObj items =>
      n ← field (lit "step_number") as_int items;
      d ← field (lit "description") as_str items;
      f ← field (lit "relevant_files") (as_list as_str) items;
      c ← field (lit "code_changes") as_str_dict items;
      Some {| step_number := n; description := d;
              relevant_files := f; code_changes := c |}
  | _ => None
  end.

(** Validation against [LowLevelDesignPlan]. *)
Definition validate_plan (j : json) : option LowLevelDesignPlan :=
  match j with
  | JObj items =>
      n ← field (lit "feature_name") as_str items;
      o ← field (lit "overview") as_str items;
      s ← field (lit "design_steps") (as_list validate_step) items;
      c ← field (lit "potential_challenges") (as_list as_str) items;
      Some {| feature_name := n; overview := o;
              design_steps := s; potential_challenges := c |}
  | _ => None
  end.

End Validation.

(** The JSON form of a step and of a plan. *)
Definition dump_step (s : DesignStep) : json :=
  JObj [ (lit "step_number", JInt (step_number s));
         (lit "description", JStr (description s));
         (lit "relevant_files", JList (JStr <$> relevant_files s));
         (lit "code_changes",
          JObj ((λ kv : str * str, (kv.1, JStr kv.2)) <$> code_changes s)) ].

Definition dump_plan (p : LowLevelDesignPlan) : json :=
  JObj [ (lit "feature_name", JStr (feature_name p));
         (lit "overview", JStr (overview p));
         (lit "design_steps", JList (dump_step <$> design_steps p));
         (lit "potential_challenges", JList (JStr <$> potential_challenges p)) ].

(** The step numbers of a plan, in the order of its steps. *)
Definition step_numbers (p : LowLevelDesignPlan) : list Z :=
  step_number <$> design_steps p.

(** A plan whose two steps carry the same number. *)
Definition repeated_step_plan : LowLevelDesignPlan :=
  {| feature_name := lit "export";
     overview := lit "add an export endpoint";
     design_steps :=
       [ {| step_number := 1; description := lit "add the route";
            relevant_files := [lit "router.py"];
            code_changes := [(lit "router.py", lit "+ route")] |};
         {| step_number := 1; description := lit "add the service";
            relevant_files := [lit "service.py"];
            code_changes := [(lit "service.py", lit "+ service")] |} ];
     potential_challenges := [] |}.

End Schema.

(** ** provider_router.py *)

Module ProviderRouter.
Import Py.

(** The module's global, assigned when the module is imported. *)
Record module_t := {
  litellm_provider : option str
}.

(** [litellm_provider = os.getenv("LITELLM_PROVIDER")] *)
Definition import_module (env : environ) : module_t :=
  {| litellm_provider := getenv env (lit "LITELLM_PROVIDER") |}.

Section API.
Context {Db SetProviderRequest Response : Type}.

(** [ProviderController(db, user_id)] *)
Record ProviderController := {
  controller_db : Db;
  controller_user_id : str
}.

(** The calls made on a controller. *)
Inductive call :=
| SetGlobalAiProvider (controller : ProviderController)
    (user_id : str) (provider : option str).

(** [controller.set_global_ai_provider(user_id, provider)] *)
Variable controller_set_global_ai_provider :
  ProviderController → str → option str → exn + Response.

(** [user[key]] *)
Definition getitem (user : gmap str str) (key : str) : M call str :=
  match user !! key with
  | Some v => mret v
  | None => raise (KeyError key)
  end.

(** [ProviderAPI.set_global_ai_provider] *)
Definition set_global_ai_provider (module : module_t)
    (provider_request : SetProviderRequest) (db : Db) (user : gmap str str)
  : M call Response :=
  user_id ← getitem user (lit "user_id");
  let controller :=
    {| controller_db := db; controller_user_id := user_id |} in
  arg_user_id ← getitem user (lit "user_id");
  emit (SetGlobalAiProvider controller arg_user_id (litellm_provider module)) ;;
  ([], controller_set_global_ai_provider controller arg_user_id
         (litellm_provider module)).

End API.

End ProviderRouter.

(** ** The streaming loop, said in one piece

    What [LowLevelDesignAgent.run] yields, written without a loop: of the
    lines read before the first empty read, those behind the first line
    that contains the marker, each as its chunk. *)

Module BridgeSpec.
Import PyStr Bridge.

(** The lines in front of the first empty read. *)
Fixpoint read_lines (lines : list str) : list str :=
  match lines with
  | [] => []
  | line :: rest => if truthy line then line :: read_lines rest else []
  end.

(** The lines behind the first line that contains the marker. *)
Fixpoint after_marker (lines : list str) : list str :=
  match lines with
  | [] => []
  | line :: rest => if contains marker line then rest else after_marker rest
  end.

Definition final_section (lines : list str) : list str :=
  chunk <$> after_marker (read_lines lines).

End BridgeSpec.

(** ** The pydantic model of unit_test_agent.py

    [UnitTestAgent.TestAgentResponse] declares two required fields, a text
    and a list of texts, and nothing else. *)

Module Responses.
Import Schema.

Record TestAgentResponse := {
  response : str;
  citations : list str
}.

(** Validation against [TestAgentResponse]. *)
Definition validate_response (j : json) : option TestAgentResponse :=
  match j with
  | JObj items =>
      r ← field (lit "response") as_str items;
      c ← field (lit "citations") (as_list as_str) items;
      Some {| response := r; citations := c |}
  | _ => None
  end.

(** The items of a JSON object. *)
Definition items_of (j : json) : list (str * json) :=
  match j with JObj items => items | _ => [] end.

(** The JSON form of a response. *)
Definition dump_response (r : TestAgentResponse) : json :=
  JObj [ (lit "response", JStr (response r));
         (lit "citations", JList (JStr <$> citations r)) ].

End Responses.

(** ** The other endpoints of provider_router.py *)

Module ProviderEndpoints.
Import Py ProviderRouter.

(** [HTTPException(status_code=..., detail=...)] *)
Inductive http_exception :=
| HTTPException (status_code : Z) (detail : str).

Section API.
Context {Db Llms Provider Preferred : Type}.

(** The calls made on a controller. *)
Inductive call :=
| ListAvailableLlms (controller : @ProviderController Db)
| GetGlobalAiProvider (controller : @ProviderController Db) (user_id : str)
| GetPreferredLlm (controller : @ProviderController Db) (user_id : str).

(** [controller.list_available_llms()] *)
Variable controller_list_available_llms :
  @ProviderController Db → exn + Llms.

(** [controller.get_global_ai_provider(user_id)] *)
Variable controller_get_global_ai_provider :
  @ProviderController Db → str → exn + Provider.

(** [controller.get_preferred_llm(user_id)] *)
Variable controller_get_preferred_llm :
  @ProviderController Db → str → exn + Preferred.

(** [AuthService.verify_hmac_signature(user_id, hmac_signature)] *)
Variable verify_hmac_signature : str → str → bool.

(** [user[key]] *)
Definition getitem (user : gmap str str) (key : str) : M call str :=
  match user !! key with
  | Some v => mret v
  | None => raise (KeyError key)
  end.

(** [ProviderAPI.list_available_llms] *)
Definition list_available_llms (db : Db) (user : gmap str str)
  : M call Llms :=
  user_id ← getitem user (lit "user_id");
  let controller :=
    {| controller_db := db; controller_user_id := user_id |} in
  emit (ListAvailableLlms controller) ;;
  ([], controller_list_available_llms controller).

(** [ProviderAPI.get_global_ai_provider] *)
Definition get_global_ai_provider (db : Db) (user : gmap str str)
  : M call Provider :=
  user_id ← getitem user (lit "user_id");
  let controller :=
    {| controller_db := db; controller_user_id := user_id |} in
  emit (GetGlobalAiProvider controller user_id) ;;
  ([], controller_get_global_ai_provider controller user_id).

(** [ProviderAPI.get_preferred_llm]: the calls made, and either the HTTP
    error raised by the endpoint itself or what the controller gives. *)
Definition get_preferred_llm (user_id : str) (db : Db)
    (hmac_signature : str)
  : list call * (http_exception + (exn + Preferred)) :=
  if negb (verify_hmac_signature user_id hmac_signature) then
    ([], inl (HTTPException 401 (lit "Unauthorized")))
  else
    let controller :=
      {| controller_db := db; controller_user_id := user_id |} in
    ([GetPreferredLlm controller user_id],
     inr (controller_get_preferred_llm controller user_id)).

End API.

End ProviderEndpoints.

(** * Properties *)

(** ** Python strings *)

Section PyStrFacts.
Import PyStr.

Lemma startswith_prefix s p : startswith s p = true ↔ p `prefix_of` s.
Proof.
  revert s; induction p as [|a p IH]; intros s; simpl.
  - split; [intros _; apply prefix_nil | by destruct s].
  - destruct s as [|b s].
    + split; [done | intros [k Hk]; discriminate].
    + simpl. rewrite andb_true_iff, N.eqb_eq, IH. split.
      * intros [-> Hp]. by apply prefix_cons.
      * intros [k Hk]. injection Hk as -> ->. split; [done | by exists k].
Qed.

Lemma endswith_suffix s p : endswith s p = true ↔ p `suffix_of` s.
Proof.
  unfold endswith. rewrite andb_true_iff, Nat.leb_le, startswith_prefix. split.
  - intros [Hlen [k Hk]].
    assert (Hk0 : k = []).
    { apply (f_equal length) in Hk. rewrite length_drop, length_app in Hk.
      destruct k; [done | simpl in Hk; lia]. }
    subst k. rewrite app_nil_r in Hk.
    exists (take (length s - length p) s).
    pose proof (take_drop (length s - length p) s) as E.
    rewrite Hk in E. by symmetry.
  - intros [k ->]. rewrite length_app. split; [lia |].
    replace (length k + length p - length p) with (length k) by lia.
    by rewrite drop_app_length.
Qed.

Lemma contains_nil p : contains p [] = startswith [] p.
Proof. unfold contains. apply orb_false_r. Qed.

Lemma contains_cons p b s :
  contains p (b :: s) = startswith (b :: s) p || contains p s.
Proof. reflexivity. Qed.

Lemma contains_occurs p s : contains p s = true ↔ occurs_in p s.
Proof.
  induction s as [|b s IH].
  - rewrite contains_nil, startswith_prefix. split.
    + intros [k Hk]. exists [], k. done.
    + intros (l & r & H). symmetry in H.
      apply app_eq_nil in H as [-> H]. apply app_eq_nil in H as [-> _].
      apply prefix_nil.
  - rewrite contains_cons, orb_true_iff, startswith_prefix, IH. split.
    + intros [[k Hk] | (l & r & ->)].
      * exists [], k. done.
      * exists (b :: l), r. done.
    + intros (l & r & H). destruct l as [|c l].
      * left. exists r. done.
      * right. injection H as -> ->. by exists l, r.
Qed.

Lemma drop_last_app s p : drop_last (length p) (s ++ p) = s.
Proof.
  unfold drop_last. rewrite length_app.
  replace (length s + length p - length p) with (length s) by lia.
  by rewrite take_app_length.
Qed.

End PyStrFacts.

(** ** The streaming capture bridge *)

Section BridgeFacts.
Import PyStr Bridge.

Lemma truthy_nonempty (l : str) : truthy l = true ↔ l ≠ [].
Proof. by destruct l. Qed.

Lemma marker_line_nonempty (l : str) : occurs_in marker l → l ≠ [].
Proof.
  intros (a & b & ->) H. apply app_eq_nil in H as [_ H].
  apply app_eq_nil in H as [H _]. discriminate H.
Qed.

Lemma reset_nl_length : length reset_nl = 6.
Proof. reflexivity. Qed.

Lemma chunk_strips (text : str) : chunk (text ++ reset_nl) = text.
Proof.
  unfold chunk.
  assert (H : endswith (text ++ reset_nl) reset_nl = true)
    by (apply endswith_suffix; by exists text).
  rewrite H. apply (drop_last_app text reset_nl).
Qed.

Lemma chunk_verbatim (line : str) :
  ¬ reset_nl `suffix_of` line → chunk line = line.
Proof.
  intros H. unfold chunk.
  destruct (endswith line reset_nl) eqn:E; [|done].
  by apply endswith_suffix in E.
Qed.

Lemma chunk_forwarded (line : str) : forwarded line (chunk line).
Proof.
  destruct (endswith line reset_nl) eqn:E.
  - apply endswith_suffix in E as [text ->]. left. exists text.
    by rewrite chunk_strips.
  - right. assert (H : ¬ reset_nl `suffix_of` line).
    { intros H. apply endswith_suffix in H. congruence. }
    by rewrite chunk_verbatim.
Qed.

(** The lines read from the pipe are never empty, so the loop's [break]
    is not taken on them. *)
Lemma split_lines_nonempty (cur data : str) :
  Forall (λ l, l ≠ []) (split_lines cur data).
Proof.
  revert cur. induction data as [|c data IH]; intros cur; simpl.
  - destruct cur; simpl; repeat constructor. discriminate.
  - destruct (c =? LF)%N; [|apply IH].
    constructor; [|apply IH]. intros H. by apply app_eq_nil in H as [_ H].
Qed.

Lemma pipe_lines_nonempty (writes : list str) :
  Forall (λ l, l ≠ []) (pipe_lines writes).
Proof. apply split_lines_nonempty. Qed.

(** Before the marker has been seen the loop leaves its state alone. *)
Lemma loop_before_marker (st : loop_state) (lines : list str) :
  final_answer_streaming st = false →
  Forall (λ l, ¬ occurs_in marker l) lines →
  loop st lines = st.
Proof.
  intros Hst Hall. induction Hall as [|l lines Hl _ IH]; [done|].
  simpl. destruct (truthy l); [|done]. simpl.
  assert (Hb : body st l = st).
  { unfold body. rewrite Hst.
    destruct (contains marker l) eqn:E; [|done].
    by apply contains_occurs in E. }
  by rewrite Hb.
Qed.

(** The first marker line sets the flag and yields nothing. *)
Lemma body_marker (st : loop_state) (m : str) :
  final_answer_streaming st = false →
  occurs_in marker m →
  body st m = {| final_answer_streaming := true; yielded := yielded st |}.
Proof.
  intros Hst Hm. apply contains_occurs in Hm.
  unfold body. by rewrite Hst, Hm.
Qed.

(** Once the flag is set, the body yields the line and keeps the flag. *)
Lemma body_streaming (st : loop_state) (line : str) :
  final_answer_streaming st = true →
  body st line = {| final_answer_streaming := true;
                    yielded := yielded st ++ [chunk line] |}.
Proof.
  intros Hst. unfold body. rewrite Hst. simpl.
  by destruct (contains marker line).
Qed.

Lemma loop_streaming (st : loop_state) (lines : list str) :
  final_answer_streaming st = true →
  Forall (λ l, l ≠ []) lines →
  loop st lines = {| final_answer_streaming := true;
                     yielded := yielded st ++ (chunk <$> lines) |}.
Proof.
  intros Hst Hall. revert st Hst.
  induction Hall as [|l lines Hl _ IH]; intros st Hst.
  - simpl. rewrite app_nil_r. destruct st; simpl in *; by subst.
  - apply truthy_nonempty in Hl. simpl. rewrite Hl. simpl.
    rewrite IH by (by rewrite body_streaming).
    rewrite body_streaming by done. simpl.
    by rewrite <- app_assoc.
Qed.

Lemma loop_flag_stays (st : loop_state) (lines : list str) :
  final_answer_streaming st = true →
  final_answer_streaming (loop st lines) = true.
Proof.
  revert st. induction lines as [|l lines IH]; intros st Hst; [done|].
  simpl. destruct (truthy l); simpl; [|done].
  apply IH. by rewrite body_streaming.
Qed.

Lemma loop_app (st : loop_state) (l1 l2 : list str) :
  Forall (λ l, l ≠ []) l1 →
  loop st (l1 ++ l2) = loop (loop st l1) l2.
Proof.
  intros Hall. revert st. induction Hall as [|l l1 Hl _ IH]; intros st; [done|].
  apply truthy_nonempty in Hl. simpl. rewrite Hl. simpl. apply IH.
Qed.

(** An empty read ends the loop: nothing behind it is looked at. *)
Lemma loop_break (st : loop_state) (l1 l2 : list str) :
  Forall (λ l, l ≠ []) l1 →
  loop st (l1 ++ [] :: l2) = loop st l1.
Proof. intros H. by rewrite loop_app. Qed.

Lemma loop_after_marker (pre post : list str) (m : str) :
  Forall (λ l, l ≠ []) (pre ++ post) →
  Forall (λ l, ¬ occurs_in marker l) pre →
  occurs_in marker m →
  loop init (pre ++ m :: post) =
    {| final_answer_streaming := true; yielded := chunk <$> post |}.
Proof.
  intros Hne Hpre Hm. apply Forall_app in Hne as [Hne1 Hne2].
  rewrite loop_app by done.
  rewrite (loop_before_marker init pre) by done.
  pose proof (marker_line_nonempty m Hm) as Hmne.
  apply truthy_nonempty in Hmne. simpl. rewrite Hmne. simpl.
  rewrite body_marker by done.
  by rewrite loop_streaming.
Qed.

(** C1: of the lines the loop reads, none before the first line containing
    the marker is yielded, the first marker line is not yielded either, and
    every line after it is yielded in order: verbatim, or without its last
    6 characters when it ends with the 6-character ["\x1b[00m\n"]. *)
Theorem run_forwards_final_section (pre post : list str) (m : str) :
  Forall (λ l, l ≠ []) (pre ++ post) →
  Forall (λ l, ¬ occurs_in marker l) pre →
  occurs_in marker m →
  run pre = [] ∧
  run (pre ++ [m]) = [] ∧
  Forall2 forwarded post (run (pre ++ m :: post)) ∧
  length reset_nl = 6 ∧
  (∀ i line, post !! i = Some line →
     reset_nl `suffix_of` line →
     run (pre ++ m :: post) !! i = Some (take (length line - 6) line)).
Proof.
  intros Hne Hpre Hm. pose proof Hne as Hne'.
  apply Forall_app in Hne' as [Hne1 Hne2].
  assert (Hrun : run (pre ++ m :: post) = chunk <$> post)
    by (unfold run; by rewrite loop_after_marker).
  split; [|split; [|split; [|split]]].
  - unfold run. by rewrite loop_before_marker.
  - unfold run. rewrite (loop_after_marker pre [] m); [done| |done|done].
    by rewrite app_nil_r.
  - rewrite Hrun. clear. induction post as [|l post IH]; simpl.
    + constructor.
    + constructor; [apply chunk_forwarded | apply IH].
  - reflexivity.
  - intros i line Hi Hsuf. rewrite Hrun, list_lookup_fmap, Hi. simpl.
    f_equal. unfold chunk. apply endswith_suffix in Hsuf. by rewrite Hsuf.
Qed.

Lemma run_forwards_final_section_witness :
  run [lit "thinking" ++ [LF]] = [] ∧
  run ([lit "thinking" ++ [LF]] ++ [lit "## Final Answer:" ++ [LF]]) = [] ∧
  Forall2 forwarded
    [lit "plan" ++ reset_nl; lit "done" ++ [LF]]
    (run ([lit "thinking" ++ [LF]] ++
          (lit "## Final Answer:" ++ [LF]) ::
          [lit "plan" ++ reset_nl; lit "done" ++ [LF]])) ∧
  length reset_nl = 6 ∧
  (∀ i line,
     [lit "plan" ++ reset_nl; lit "done" ++ [LF]] !! i = Some line →
     reset_nl `suffix_of` line →
     run ([lit "thinking" ++ [LF]] ++
          (lit "## Final Answer:" ++ [LF]) ::
          [lit "plan" ++ reset_nl; lit "done" ++ [LF]]) !! i
     = Some (take (length line - 6) line)).
Proof.
  apply (run_forwards_final_section
           [lit "thinking" ++ [LF]]
           [lit "plan" ++ reset_nl; lit "done" ++ [LF]]
           (lit "## Final Answer:" ++ [LF])).
  - repeat constructor; discriminate.
  - repeat constructor. intros H. apply contains_occurs in H.
    vm_compute in H. discriminate H.
  - apply contains_occurs. vm_compute. reflexivity.
Defined.

(** C2: the four lines ["part1\n"], ["## Final Answer:\n"],
    ["hello\x1b[00m\n"], ["world\n"] written into the pipe come out as
    these four lines, and [run] yields exactly ["hello"] and ["world\n"],
    in that order. *)
Theorem run_synthetic_producer :
  pipe_lines synthetic_writes = synthetic_writes ∧
  run (pipe_lines synthetic_writes) = [lit "hello"; lit "world" ++ [LF]].
Proof. split; vm_compute; reflexivity. Qed.

(** C9: the flag is monotone.  It is false until the first marker line has
    been read and true after every later line, so the first marker line is
    the only one withheld on account of the marker: each later line, with
    or without a marker in it, is yielded at its place. *)
Theorem final_answer_flag_monotone (pre post : list str) (m : str) :
  Forall (λ l, l ≠ []) (pre ++ post) →
  Forall (λ l, ¬ occurs_in marker l) pre →
  occurs_in marker m →
  final_answer_streaming (loop init pre) = false ∧
  (∀ k, final_answer_streaming (loop init (pre ++ m :: take k post)) = true) ∧
  (∀ st lines, final_answer_streaming st = true →
     final_answer_streaming (loop st lines) = true) ∧
  length (run (pre ++ m :: post)) = length post ∧
  (∀ i line, post !! i = Some line →
     run (pre ++ m :: post) !! i = Some (chunk line)).
Proof.
  intros Hne Hpre Hm. pose proof Hne as Hne'.
  apply Forall_app in Hne' as [Hne1 Hne2].
  assert (Hrun : run (pre ++ m :: post) = chunk <$> post)
    by (unfold run; by rewrite loop_after_marker).
  split; [|split; [|split; [|split]]].
  - by rewrite loop_before_marker.
  - intros k. rewrite loop_after_marker; [done| |done|done].
    apply Forall_app. split; [done|]. by apply Forall_take.
  - apply loop_flag_stays.
  - by rewrite Hrun, length_fmap.
  - intros i line Hi. by rewrite Hrun, list_lookup_fmap, Hi.
Qed.

Lemma final_answer_flag_monotone_witness :
  let pre := [lit "Thought: look at the code" ++ [LF]] in
  let m := lit "## Final Answer:" ++ [LF] in
  let post := [lit "step 1" ++ [LF]; lit "see ## Final Answer: above" ++ [LF]] in
  final_answer_streaming (loop init pre) = false ∧
  (∀ k, final_answer_streaming (loop init (pre ++ m :: take k post)) = true) ∧
  (∀ st lines, final_answer_streaming st = true →
     final_answer_streaming (loop st lines) = true) ∧
  length (run (pre ++ m :: post)) = length post ∧
  (∀ i line, post !! i = Some line →
     run (pre ++ m :: post) !! i = Some (chunk line)).
Proof.
  apply (final_answer_flag_monotone
           [lit "Thought: look at the code" ++ [LF]]
           [lit "step 1" ++ [LF]; lit "see ## Final Answer: above" ++ [LF]]
           (lit "## Final Answer:" ++ [LF])).
  - repeat constructor; discriminate.
  - repeat constructor. intros H. apply contains_occurs in H.
    vm_compute in H. discriminate H.
  - apply contains_occurs. vm_compute. reflexivity.
Defined.

(** A later marker line is yielded like any other line. *)
Example later_marker_line_is_yielded :
  run [lit "## Final Answer:" ++ [LF];
       lit "a" ++ [LF];
       lit "## Final Answer:" ++ [LF];
       lit "b" ++ [LF]]
  = [lit "a" ++ [LF]; lit "## Final Answer:" ++ [LF]; lit "b" ++ [LF]].
Proof. vm_compute. reflexivity. Qed.

End BridgeFacts.

(** ** Calls and outcomes *)

Section PyFacts.
Import Py.

Lemma split_step {A} (x : A) (l s r : list A) :
  l = s ++ r → x :: l = (x :: s) ++ r.
Proof. by intros ->. Qed.

Lemma split_here {A} (l r : list A) : l = r → l = [] ++ r.
Proof. done. Qed.

Lemma calls_bind {E A B} (m : M E A) (k : A → M E B) :
  calls (m ≫= k) =
  calls m ++ match outcome m with inr a => calls (k a) | inl _ => [] end.
Proof. destruct m as [tr [x|a]]; simpl; [by rewrite app_nil_r | done]. Qed.

Lemma outcome_bind {E A B} (m : M E A) (k : A → M E B) :
  outcome (m ≫= k) =
  match outcome m with inr a => outcome (k a) | inl x => inl x end.
Proof. by destruct m as [tr [x|a]]. Qed.

Lemma truthy_set_nonempty (env : environ) (name : str) :
  truthy (getenv env name) = true ↔ set_nonempty env name.
Proof.
  unfold set_nonempty, getenv. destruct (env !! name) as [v|]; simpl.
  - rewrite truthy_nonempty. split.
    + intros H. by exists v.
    + by intros (w & [= <-] & H).
  - split; [done | by intros (w & [=] & _)].
Qed.

End PyFacts.

(** Splits a list of calls in front of its [Kickoff]. *)
Ltac split_at_kickoff :=
  repeat lazymatch goal with
         | |- Crewai.Kickoff _ :: _ = _ => fail
         | |- _ :: _ = _ => apply split_step
         end;
  apply split_here; rewrite ?app_nil_r; reflexivity.

(** ** unit_test_agent.py *)

Section UnitTestFacts.
Import Py Crewai UnitTestAgent.
Context {Db Llm NodeContext Turn R : Type} {framework : Framework}.
Variable node_id : NodeContext → str.
Variable unit_test_description : list Turn → str → str → value → str → str.
Variable get_large_llm : Db → str → agent_type → Llm.
Variable kickoff_async : Crew Db Llm → Py.M (call Db Llm) R.

Lemma unit_test_init_outcome (env : environ) (sql_db : Db) (llm : Llm)
    (user_id : str) :
  outcome (init env sql_db llm user_id) =
  inr {| openai_api_key := getenv env (lit "OPENAI_API_KEY");
         max_iterations := getenv_default env (lit "MAX_ITER") (PInt 15);
         sql_db := sql_db;
         llm := llm;
         user_id := user_id;
         get_code_from_node_id := Tool GetCodeFromNodeId sql_db (Some user_id);
         get_code_from_probable_node_name :=
           Tool GetCodeFromProbableNodeName sql_db (Some user_id);
         webpage_extractor_tool :=
           if truthy (getenv env (lit "FIRECRAWL_API_KEY"))
           then Some (Tool WebpageExtractor sql_db (Some user_id)) else None;
         github_tool :=
           if truthy (getenv env (lit "GITHUB_APP_ID"))
           then Some (Tool Github sql_db (Some user_id)) else None |}.
Proof.
  unfold init.
  destruct (truthy (getenv env (lit "FIRECRAWL_API_KEY"))),
           (truthy (getenv env (lit "GITHUB_APP_ID"))); reflexivity.
Qed.

Lemma unit_test_init_setup_only (env : environ) (sql_db : Db) (llm : Llm)
    (user_id : str) :
  setup_only (calls (init env sql_db llm user_id)).
Proof.
  unfold init, setup_only.
  destruct (truthy (getenv env (lit "FIRECRAWL_API_KEY"))),
           (truthy (getenv env (lit "GITHUB_APP_ID")));
    cbn; repeat constructor.
Qed.

Lemma unit_test_create_agents_rejects (self : @self_t Db Llm) :
  validate_max_iter (Some (max_iterations self)) = None →
  create_agents self = ([], inl ValidationError).
Proof.
  intros H. unfold create_agents, new_agent. cbn [max_iter].
  rewrite H. reflexivity.
Qed.

Lemma unit_test_create_agents_accepts (self : @self_t Db Llm) (z : Z) :
  validate_max_iter (Some (max_iterations self)) = Some z →
  ∃ expert,
    create_agents self = ([AgentConstructed expert], inr expert) ∧
    max_iter expert = Some (PInt z) ∧
    agent_llm expert = llm self ∧
    allow_delegation expert = false ∧
    tools expert =
      [get_code_from_node_id self; get_code_from_probable_node_name self]
      ++ if_hasattr (webpage_extractor_tool self)
      ++ if_hasattr (github_tool self).
Proof.
  intros H. eexists. unfold create_agents, new_agent. cbn [max_iter].
  rewrite H. repeat split.
Qed.

Lemma unit_test_run_rejects (self : self_t) (project_id : str)
    (node_ids : list NodeContext) (query : str) (chat_history : list Turn) :
  validate_max_iter (Some (max_iterations self)) = None →
  run node_id unit_test_description kickoff_async
      self project_id node_ids query chat_history
  = ([], inl ValidationError).
Proof.
  intros H. unfold run. by rewrite unit_test_create_agents_rejects.
Qed.

Lemma unit_test_run_kickoff (self : self_t) (project_id : str)
    (node_ids : list NodeContext) (query : str) (chat_history : list Turn)
    (z : Z) :
  validate_max_iter (Some (max_iterations self)) = Some z →
  ∃ crew setup,
    calls (run node_id unit_test_description kickoff_async
               self project_id node_ids query chat_history)
      = setup ++ Kickoff crew :: calls (kickoff_async crew) ∧
    setup_only setup ∧
    outcome (run node_id unit_test_description kickoff_async
                 self project_id node_ids query chat_history)
      = outcome (kickoff_async crew).
Proof.
  intros Hz.
  unfold run, create_agents, create_tasks, new_agent, setup_only.
  cbn [max_iter]. rewrite Hz. cbn -[join].
  match goal with
  | |- context [kickoff_async ?c] =>
      exists c; destruct (kickoff_async c) as [tr [x|r]]
  end; cbn -[join].
  all: eexists; split; [split_at_kickoff | split; [|reflexivity]].
  all: repeat constructor.
Qed.

(** C3, as the code has it: with an empty [node_ids] list
    [kickoff_unit_test_agent] returns the fixed error dictionary and makes
    no call at all: no agent, task or crew is constructed, no tool adapter
    bound or invoked, the executor is not started.  With a non-empty list
    and a [MAX_ITER] that is unset or that [Agent(...)] accepts as an
    integer, the executor is started on a crew, nothing before that starts
    it or invokes a tool, and what the executor returns (or raises) is
    returned (or raised) unchanged.  With a non-empty list and a
    [MAX_ITER] that [Agent(...)] rejects, its validation error is raised
    and the executor is not started. *)
Theorem kickoff_unit_test_agent_precondition (env : environ)
    (query : str) (chat_history : list Turn) (project_id : str)
    (sql_db : Db) (llm : Llm) (user_id : str) :
  kickoff_unit_test_agent node_id unit_test_description get_large_llm
    kickoff_async env query chat_history project_id [] sql_db llm user_id
  = ([], inr (Dict {[ lit "error" := no_node_message ]}))
  ∧
  (∀ node nodes z,
     max_iter_setting env = Some z →
     ∃ crew setup,
       calls (kickoff_unit_test_agent node_id unit_test_description
                get_large_llm kickoff_async env query chat_history project_id
                (node :: nodes) sql_db llm user_id)
         = setup ++ Kickoff crew :: calls (kickoff_async crew) ∧
       setup_only setup ∧
       outcome (kickoff_unit_test_agent node_id unit_test_description
                  get_large_llm kickoff_async env query chat_history
                  project_id (node :: nodes) sql_db llm user_id)
         = match outcome (kickoff_async crew) with
           | inl x => inl x
           | inr r => inr (Output r)
           end)
  ∧
  (∀ node nodes,
     max_iter_setting env = None →
     setup_only
       (calls (kickoff_unit_test_agent node_id unit_test_description
                 get_large_llm kickoff_async env query chat_history
                 project_id (node :: nodes) sql_db llm user_id)) ∧
     outcome (kickoff_unit_test_agent node_id unit_test_description
                get_large_llm kickoff_async env query chat_history
                project_id (node :: nodes) sql_db llm user_id)
       = inl ValidationError).
Proof.
  split; [reflexivity|].
  set (llm' := get_large_llm sql_db user_id CREWAI).
  pose proof (unit_test_init_outcome env sql_db llm' user_id) as Hinit.
  pose proof (unit_test_init_setup_only env sql_db llm' user_id) as Hquiet.
  match type of Hinit with _ = inr ?s => set (self := s) in Hinit end.
  split.
  - intros node nodes z Hz.
    destruct (unit_test_run_kickoff self project_id (node :: nodes) query
                chat_history z Hz) as (crew & setup & Hcalls & Hsetup & Hout).
    exists crew.
    exists (ProviderServiceCreated sql_db user_id :: LargeLlmRequested CREWAI
            :: calls (init env sql_db llm' user_id) ++ setup).
    unfold kickoff_unit_test_agent. simpl is_empty. cbv iota.
    split; [|split].
    + rewrite calls_bind. cbn -[init run]. fold llm'.
      rewrite calls_bind, Hinit, calls_bind, Hcalls, Hout.
      destruct (outcome (kickoff_async crew)); cbn;
        rewrite ?app_nil_r, <- ?app_assoc; reflexivity.
    + unfold setup_only in *.
      do 2 (apply Forall_cons; split; [reflexivity|]).
      apply Forall_app. split; assumption.
    + rewrite outcome_bind. cbn -[init run]. fold llm'.
      rewrite outcome_bind, Hinit, outcome_bind, Hout.
      destruct (outcome (kickoff_async crew)); reflexivity.
  - intros node nodes Hz.
    pose proof (unit_test_run_rejects self project_id (node :: nodes) query
                  chat_history Hz) as Hrun.
    unfold kickoff_unit_test_agent. simpl is_empty. cbv iota.
    split.
    + rewrite calls_bind. cbn -[init run]. fold llm'.
      rewrite calls_bind, Hinit, calls_bind, Hrun. cbn.
      rewrite !app_nil_r. unfold setup_only in *.
      do 2 (apply Forall_cons; split; [reflexivity|]). assumption.
    + rewrite outcome_bind. cbn -[init run]. fold llm'.
      rewrite outcome_bind, Hinit, outcome_bind, Hrun. reflexivity.
Qed.

End UnitTestFacts.

(** ** low_level_design_agent.py *)

Section DesignFacts.
Import Py Crewai LowLevelDesignAgent.
Context {Db Llm : Type} {framework : Framework}.
Variable int_of_str : str → option Z.
Variable analyze_codebase_description : str → str → str.
Variable create_design_plan_description : str → str → str.
Variable stdout_of : Crew Db Llm → list str.

Lemma design_init_outcome (env : environ) (sql_db : Db) (llm : Llm)
    (user_id : str) :
  outcome (init int_of_str env sql_db llm user_id) =
  match max_iter_setting int_of_str env with
  | None => inl ValueError
  | Some z =>
      inr {| openai_api_key := getenv env (lit "OPENAI_API_KEY");
             max_iter := z;
             sql_db := sql_db;
             llm := llm;
             user_id := user_id;
             get_code_from_node_id :=
               Tool GetCodeFromNodeId sql_db (Some user_id);
             get_code_from_probable_node_name :=
               Tool GetCodeFromProbableNodeName sql_db (Some user_id);
             get_nodes_from_tags := Tool GetNodesFromTags sql_db (Some user_id);
             ask_knowledge_graph_queries :=
               Tool AskKnowledgeGraphQueries sql_db (Some user_id);
             get_code_file_structure := Tool GetCodeFileStructure sql_db None;
             get_node_neighbours_from_node_id :=
               Tool GetNodeNeighboursFromNodeId sql_db None;
             webpage_extractor_tool :=
               if truthy (getenv env (lit "FIRECRAWL_API_KEY"))
               then Some (Tool WebpageExtractor sql_db (Some user_id))
               else None;
             github_tool :=
               if truthy (getenv env (lit "GITHUB_APP_ID"))
               then Some (Tool Github sql_db (Some user_id)) else None |}
  end.
Proof.
  unfold init, max_iter_setting, getenv_default, py_int.
  destruct (env !! lit "MAX_ITER") as [s|]; [destruct (int_of_str s)|];
    try reflexivity;
    destruct (truthy (getenv env (lit "FIRECRAWL_API_KEY"))),
             (truthy (getenv env (lit "GITHUB_APP_ID"))); reflexivity.
Qed.

(** C8: in the design pipeline the Codebase Analyst is constructed with
    delegation disallowed and the Design Planner with delegation allowed;
    the planner's tools contain the node-neighbour adapter and the
    analyst's do not; the two tasks come in order, the first for the
    analyst without context, the second for the planner with the first
    task as its whole context. *)
Theorem design_pipeline_shape (env : environ) (sql_db : Db) (llm : Llm)
    (user_id functional_requirements project_id : str) (self : self_t) :
  outcome (init int_of_str env sql_db llm user_id) = inr self →
  ∃ analyst planner analysis_task plan_task,
    outcome (create_agents self) = inr (analyst, planner) ∧
    outcome (create_tasks analyze_codebase_description
               create_design_plan_description self
               functional_requirements project_id analyst planner)
      = inr [analysis_task; plan_task] ∧
    role analyst = lit "Codebase Analyst" ∧
    role planner = lit "Design Planner" ∧
    allow_delegation analyst = false ∧
    allow_delegation planner = true ∧
    get_node_neighbours_from_node_id self ∈ tools planner ∧
    has_kind GetNodeNeighboursFromNodeId (tools planner) ∧
    ¬ has_kind GetNodeNeighboursFromNodeId (tools analyst) ∧
    agent analysis_task = analyst ∧
    context analysis_task = None ∧
    agent plan_task = planner ∧
    context plan_task = Some [analysis_task].
Proof.
  rewrite design_init_outcome.
  destruct (max_iter_setting int_of_str env) as [z|]; [|discriminate].
  intros [= <-]. eexists _, _, _, _.
  split; [reflexivity|]. split; [reflexivity|].
  repeat (split; [reflexivity|]).
  split; [|split; [|split; [|repeat split]]].
  - cbn. set_solver.
  - unfold has_kind. cbn. set_solver.
  - unfold has_kind. cbn.
    destruct (truthy (getenv env (lit "FIRECRAWL_API_KEY"))),
             (truthy (getenv env (lit "GITHUB_APP_ID"))); cbn;
      rewrite ?elem_of_cons, elem_of_nil; intros H;
      repeat destruct H as [H|H]; discriminate || done.
Qed.

(** [run] starts the executor on one crew, after set-up calls only, and
    yields what the streaming loop makes of the lines that crew prints. *)
Lemma design_run_streams (self : self_t)
    (functional_requirements project_id : str) :
  ∃ crew setup,
    calls (run analyze_codebase_description create_design_plan_description
               stdout_of self functional_requirements project_id)
      = setup ++ [Kickoff crew] ∧
    setup_only setup ∧
    outcome (run analyze_codebase_description create_design_plan_description
                 stdout_of self functional_requirements project_id)
      = inr (Bridge.run (Bridge.pipe_lines (stdout_of crew))).
Proof.
  unfold run, create_agents, create_tasks, setup_only. cbn.
  eexists _, _. split; [split_at_kickoff|]. split; [|reflexivity].
  repeat constructor.
Qed.

End DesignFacts.

(** ** The two pipelines side by side *)

(** Decides whether a tool kind occurs in a list of kinds that has been
    computed. *)
Ltac decide_kind :=
  unfold Crewai.has_kind; cbn;
  rewrite ?elem_of_cons, ?elem_of_nil;
  split; [intros H; repeat destruct H as [H|H]; discriminate || done
         | intros H; discriminate || (repeat first [by left | right])].

Section PipelineFacts.
Import Py Crewai.
Context {Db Llm NodeContext Turn : Type} {framework : Framework}.
Variable int_of_str : str → option Z.
Variable analyze_codebase_description : str → str → str.
Variable create_design_plan_description : str → str → str.
Variable node_id : NodeContext → str.
Variable unit_test_description : list Turn → str → str → value → str → str.

Lemma unit_test_tools (env : environ) (sql_db : Db) (llm : Llm)
    (user_id : str) (z : Z) :
  UnitTestAgent.max_iter_setting env = Some z →
  ∃ self expert,
    outcome (UnitTestAgent.init env sql_db llm user_id) = inr self ∧
    outcome (UnitTestAgent.create_agents self) = inr expert ∧
    max_iter expert = Some (PInt z) ∧
    (has_kind WebpageExtractor (tools expert) ↔
       truthy (getenv env (lit "FIRECRAWL_API_KEY")) = true) ∧
    (has_kind Github (tools expert) ↔
       truthy (getenv env (lit "GITHUB_APP_ID")) = true).
Proof.
  intros Hz.
  pose proof (unit_test_init_outcome env sql_db llm user_id) as Hinit.
  match type of Hinit with _ = inr ?s => set (self := s) in Hinit end.
  destruct (unit_test_create_agents_accepts self z Hz)
    as (expert & Hexpert & Hbudget & _ & _ & Htools).
  exists self, expert. split; [exact Hinit|].
  split; [by rewrite Hexpert|]. split; [exact Hbudget|].
  rewrite Htools. subst self. cbn.
  destruct (truthy (getenv env (lit "FIRECRAWL_API_KEY"))),
           (truthy (getenv env (lit "GITHUB_APP_ID")));
    split; decide_kind.
Qed.

Lemma design_tools (env : environ) (sql_db : Db) (llm : Llm)
    (user_id : str) (z : Z) :
  LowLevelDesignAgent.max_iter_setting int_of_str env = Some z →
  ∃ self analyst planner,
    outcome (LowLevelDesignAgent.init int_of_str env sql_db llm user_id)
      = inr self ∧
    outcome (LowLevelDesignAgent.create_agents self)
      = inr (analyst, planner) ∧
    max_iter analyst = Some (PInt z) ∧
    max_iter planner = Some (PInt default_max_iter) ∧
    (has_kind WebpageExtractor (tools analyst) ↔
       truthy (getenv env (lit "FIRECRAWL_API_KEY")) = true) ∧
    (has_kind Github (tools analyst) ↔
       truthy (getenv env (lit "GITHUB_APP_ID")) = true).
Proof.
  intros Hz. eexists _, _, _.
  split; [rewrite design_init_outcome, Hz; reflexivity|].
  split; [reflexivity|]. split; [reflexivity|]. split; [reflexivity|].
  destruct (truthy (getenv env (lit "FIRECRAWL_API_KEY"))),
           (truthy (getenv env (lit "GITHUB_APP_ID")));
    split; decide_kind.
Qed.

(** C7, as the code has it: the Unit Test Expert is constructed without
    error whenever [MAX_ITER] is unset or a text that [Agent(...)] accepts
    as an integer, and the Codebase Analyst whenever [MAX_ITER] is unset or
    a text that [int] accepts, whatever the two credentials are; the
    webpage-extractor adapter is in their tool lists exactly when
    [FIRECRAWL_API_KEY] is set to a non-empty value, and the GitHub adapter
    exactly when [GITHUB_APP_ID] is. *)
Theorem optional_adapters_follow_environment (env : environ) (sql_db : Db)
    (llm : Llm) (user_id : str) :
  (is_Some (UnitTestAgent.max_iter_setting env) →
   ∃ self expert,
     outcome (UnitTestAgent.init env sql_db llm user_id) = inr self ∧
     outcome (UnitTestAgent.create_agents self) = inr expert ∧
     (has_kind WebpageExtractor (tools expert) ↔
        set_nonempty env (lit "FIRECRAWL_API_KEY")) ∧
     (has_kind Github (tools expert) ↔
        set_nonempty env (lit "GITHUB_APP_ID")))
  ∧
  (is_Some (LowLevelDesignAgent.max_iter_setting int_of_str env) →
   ∃ self analyst planner,
     outcome (LowLevelDesignAgent.init int_of_str env sql_db llm user_id)
       = inr self ∧
     outcome (LowLevelDesignAgent.create_agents self)
       = inr (analyst, planner) ∧
     (has_kind WebpageExtractor (tools analyst) ↔
        set_nonempty env (lit "FIRECRAWL_API_KEY")) ∧
     (has_kind Github (tools analyst) ↔
        set_nonempty env (lit "GITHUB_APP_ID"))).
Proof.
  split.
  - intros [z Hz].
    destruct (unit_test_tools env sql_db llm user_id z Hz)
      as (self & expert & H1 & H2 & _ & H3 & H4).
    exists self, expert. rewrite <- !truthy_set_nonempty. done.
  - intros [z Hz].
    destruct (design_tools env sql_db llm user_id z Hz)
      as (self & analyst & planner & H1 & H2 & _ & _ & H3 & H4).
    exists self, analyst, planner. rewrite <- !truthy_set_nonempty. done.
Qed.

(** C4: only the test pipeline declares an output schema.  The unit-test
    task is constructed with [output_pydantic=TestAgentResponse]; neither
    task of the design pipeline is constructed with an output schema, the
    design-plan task included. *)
Theorem design_plan_task_declares_no_schema
    (design_self : LowLevelDesignAgent.self_t)
    (functional_requirements project_id : str)
    (analyst planner : Agent Db Llm)
    (test_self : UnitTestAgent.self_t)
    (node_ids : list NodeContext) (query : str) (history : list Turn)
    (expert : Agent Db Llm) :
  (∃ unit_test_task,
     outcome (UnitTestAgent.create_tasks node_id unit_test_description
                test_self node_ids project_id query history expert)
       = inr unit_test_task ∧
     output_pydantic unit_test_task = Some TestAgentResponse)
  ∧
  (∃ analyze_codebase_task create_design_plan_task,
     outcome (LowLevelDesignAgent.create_tasks analyze_codebase_description
                create_design_plan_description design_self
                functional_requirements project_id analyst planner)
       = inr [analyze_codebase_task; create_design_plan_task] ∧
     output_pydantic create_design_plan_task = None ∧
     output_pydantic create_design_plan_task ≠ Some LowLevelDesignPlan).
Proof.
  split.
  - eexists. split; reflexivity.
  - eexists _, _. split; [reflexivity|]. split; [reflexivity | discriminate].
Qed.

(** C6: every agent that is constructed carries an integer iteration
    budget, whatever [MAX_ITER] is.  The Codebase Analyst carries the
    integer that [int] made of [MAX_ITER], or 10; the Design Planner, for
    which no budget is passed, the framework's default; the Unit Test
    Expert the integer that [Agent(...)] made of the [MAX_ITER] text, or
    15. *)
Theorem agent_budgets_are_integers (env : environ) (sql_db : Db)
    (llm : Llm) (user_id : str) :
  (∀ self analyst planner,
     outcome (LowLevelDesignAgent.init int_of_str env sql_db llm user_id)
       = inr self →
     outcome (LowLevelDesignAgent.create_agents self)
       = inr (analyst, planner) →
     ∃ z,
       LowLevelDesignAgent.max_iter_setting int_of_str env = Some z ∧
       max_iter analyst = Some (PInt z) ∧
       is_int <$> max_iter analyst = Some true ∧
       max_iter planner = Some (PInt default_max_iter) ∧
       is_int <$> max_iter planner = Some true)
  ∧
  (∀ self expert,
     outcome (UnitTestAgent.init env sql_db llm user_id) = inr self →
     outcome (UnitTestAgent.create_agents self) = inr expert →
     ∃ z,
       UnitTestAgent.max_iter_setting env = Some z ∧
       max_iter expert = Some (PInt z) ∧
       is_int <$> max_iter expert = Some true).
Proof.
  split.
  - intros self analyst planner. rewrite design_init_outcome.
    destruct (LowLevelDesignAgent.max_iter_setting int_of_str env) as [z|];
      [|discriminate].
    intros [= <-] [= <- <-]. exists z. repeat split.
  - intros self expert. rewrite unit_test_init_outcome. intros [= <-].
    match goal with
    | |- outcome (UnitTestAgent.create_agents ?s) = _ → _ => set (self := s)
    end.
    unfold UnitTestAgent.max_iter_setting.
    destruct (validate_max_iter
                (Some (getenv_default env (lit "MAX_ITER") (PInt 15))))
      as [z|] eqn:Hz.
    + destruct (unit_test_create_agents_accepts self z Hz)
        as (e & He & Hb & _). rewrite He. intros [= <-].
      exists z. rewrite Hb. repeat split.
    + rewrite (unit_test_create_agents_rejects self Hz). discriminate.
Qed.

End PipelineFacts.

(** ** The pydantic models *)

Section SchemaFacts.
Import Schema.
Context {framework : Framework}.

Lemma as_list_strings (l : list str) :
  as_list as_str (JList (JStr <$> l)) = Some l.
Proof.
  unfold as_list. apply mapM_Some. induction l; constructor; done.
Qed.

Lemma as_str_dict_strings (l : list (str * str)) :
  as_str_dict (JObj ((λ kv : str * str, (kv.1, JStr kv.2)) <$> l)) = Some l.
Proof.
  unfold as_str_dict. apply mapM_Some.
  induction l as [|[k v] l IH]; constructor; done.
Qed.

Lemma validate_dump_step (s : DesignStep) :
  validate_step (dump_step s) = Some s.
Proof.
  destruct s as [n d f c]. unfold validate_step, dump_step, field.
  cbn [step_number description relevant_files code_changes].
  change (dict_get (lit "step_number") _) with (Some (JInt n)).
  change (dict_get (lit "description") _) with (Some (JStr d)).
  change (dict_get (lit "relevant_files") _) with (Some (JList (JStr <$> f))).
  change (dict_get (lit "code_changes") _)
    with (Some (JObj ((λ kv : str * str, (kv.1, JStr kv.2)) <$> c))).
  cbn [mbind option_bind as_int as_str].
  rewrite as_list_strings. cbn [mbind option_bind].
  rewrite as_str_dict_strings. reflexivity.
Qed.

Lemma as_list_steps (l : list DesignStep) :
  as_list validate_step (JList (dump_step <$> l)) = Some l.
Proof.
  unfold as_list. apply mapM_Some.
  induction l; constructor; [apply validate_dump_step | done].
Qed.

(** C5, as the code has it: validation against [LowLevelDesignPlan] accepts
    every plan whose fields are present with the declared types, whatever
    its [step_number] values are; it returns the plan unchanged. *)
Theorem validate_plan_accepts_typed_plans (p : LowLevelDesignPlan) :
  validate_plan (dump_plan p) = Some p.
Proof.
  destruct p as [n o s c]. unfold validate_plan, dump_plan, field.
  cbn [feature_name overview design_steps potential_challenges].
  change (dict_get (lit "feature_name") _) with (Some (JStr n)).
  change (dict_get (lit "overview") _) with (Some (JStr o)).
  change (dict_get (lit "design_steps") _)
    with (Some (JList (dump_step <$> s))).
  change (dict_get (lit "potential_challenges") _)
    with (Some (JList (JStr <$> c))).
  cbn [mbind option_bind as_str].
  rewrite as_list_steps. cbn [mbind option_bind].
  rewrite as_list_strings. reflexivity.
Qed.

End SchemaFacts.

Section SchemaScenarios.
Import Schema.
#[local] Existing Instance plain_framework.

(** C5 fails as stated: a plan whose two steps are both numbered 1 is
    accepted, though its step numbers are neither pairwise distinct nor
    strictly increasing. *)
Lemma repeated_step_numbers_accepted :
  validate_plan (dump_plan repeated_step_plan) = Some repeated_step_plan ∧
  step_numbers repeated_step_plan = [1; 1]%Z ∧
  ¬ NoDup (step_numbers repeated_step_plan) ∧
  ¬ StronglySorted Z.lt (step_numbers repeated_step_plan).
Proof.
  split; [vm_compute; reflexivity|]. split; [reflexivity|]. split.
  - change (step_numbers repeated_step_plan) with [1; 1]%Z.
    intros H. apply NoDup_cons in H as [H _]. apply H. by left.
  - change (step_numbers repeated_step_plan) with [1; 1]%Z.
    intros H. apply StronglySorted_inv in H as [_ H].
    apply Forall_cons in H as [H _]. lia.
Qed.

End SchemaScenarios.

(** ** provider_router.py *)

Section ProviderFacts.
Import Py ProviderRouter.
Context {Db SetProviderRequest Response : Type}.
Variable controller_set_global_ai_provider :
  @ProviderController Db → str → option str → exn + Response.

(** C10: the endpoint does not look at the request body.  Two requests that
    differ only in their payload make the same controller call and get the
    same answer, and the provider passed to the controller is what
    [LITELLM_PROVIDER] held when the module was imported. *)
Theorem set_global_ai_provider_ignores_request (env : environ)
    (request1 request2 : SetProviderRequest) (db : Db)
    (user : gmap str str) :
  set_global_ai_provider controller_set_global_ai_provider
    (import_module env) request1 db user
  = set_global_ai_provider controller_set_global_ai_provider
      (import_module env) request2 db user
  ∧
  calls (set_global_ai_provider controller_set_global_ai_provider
           (import_module env) request1 db user)
  = match user !! lit "user_id" with
    | Some user_id =>
        [ SetGlobalAiProvider
            {| controller_db := db; controller_user_id := user_id |}
            user_id (env !! lit "LITELLM_PROVIDER") ]
    | None => []
    end.
Proof.
  split; [reflexivity|].
  unfold set_global_ai_provider, getitem.
  destruct (user !! lit "user_id"); reflexivity.
Qed.

End ProviderFacts.

(** ** The pipelines in concrete environments *)

Section Scenarios.
Import Py Crewai.
#[local] Existing Instance plain_framework.

Lemma design_pipeline_shape_witness :
  ∃ self : LowLevelDesignAgent.self_t,
    outcome (LowLevelDesignAgent.init (λ _, None) credentials_env
               tt tt (lit "user")) = inr self ∧
    ∃ analyst planner analysis_task plan_task,
      outcome (LowLevelDesignAgent.create_agents self)
        = inr (analyst, planner) ∧
      outcome (LowLevelDesignAgent.create_tasks (λ _ _, []) (λ _ _, []) self
                 (lit "export to csv") (lit "project-1") analyst planner)
        = inr [analysis_task; plan_task] ∧
      role analyst = lit "Codebase Analyst" ∧
      role planner = lit "Design Planner" ∧
      allow_delegation analyst = false ∧
      allow_delegation planner = true ∧
      LowLevelDesignAgent.get_node_neighbours_from_node_id self
        ∈ tools planner ∧
      has_kind GetNodeNeighboursFromNodeId (tools planner) ∧
      ¬ has_kind GetNodeNeighboursFromNodeId (tools analyst) ∧
      agent analysis_task = analyst ∧
      context analysis_task = None ∧
      agent plan_task = planner ∧
      context plan_task = Some [analysis_task].
Proof.
  eexists. split; [vm_compute; reflexivity|].
  apply (design_pipeline_shape (λ _, None) (λ _ _, []) (λ _ _, [])
           credentials_env tt tt (lit "user")
           (lit "export to csv") (lit "project-1")).
  vm_compute. reflexivity.
Defined.

Lemma optional_adapters_follow_environment_witness :
  (∃ self expert,
     outcome (UnitTestAgent.init credentials_env tt tt (lit "user"))
       = inr self ∧
     outcome (UnitTestAgent.create_agents self) = inr expert ∧
     (has_kind WebpageExtractor (tools expert) ↔
        set_nonempty credentials_env (lit "FIRECRAWL_API_KEY")) ∧
     (has_kind Github (tools expert) ↔
        set_nonempty credentials_env (lit "GITHUB_APP_ID")))
  ∧
  (∃ self analyst planner,
     outcome (LowLevelDesignAgent.init decimal credentials_env
                tt tt (lit "user")) = inr self ∧
     outcome (LowLevelDesignAgent.create_agents self)
       = inr (analyst, planner) ∧
     (has_kind WebpageExtractor (tools analyst) ↔
        set_nonempty credentials_env (lit "FIRECRAWL_API_KEY")) ∧
     (has_kind Github (tools analyst) ↔
        set_nonempty credentials_env (lit "GITHUB_APP_ID"))).
Proof.
  destruct (optional_adapters_follow_environment decimal credentials_env
              tt tt (lit "user")) as [Hexpert Hanalyst].
  split.
  - apply Hexpert. exists 15%Z. vm_compute. reflexivity.
  - apply Hanalyst. exists 10%Z. vm_compute. reflexivity.
Defined.

(** C7 fails as stated: with [FIRECRAWL_API_KEY] set to the empty string
    the variable is set, the Unit Test Expert is constructed, and the
    webpage-extractor adapter is not among its tools. *)
Lemma empty_key_is_set_without_adapter :
  is_Some (getenv empty_key_env (lit "FIRECRAWL_API_KEY")) ∧
  ∃ self expert,
    outcome (UnitTestAgent.init empty_key_env tt tt (lit "user"))
      = inr self ∧
    outcome (UnitTestAgent.create_agents self) = inr expert ∧
    ¬ has_kind WebpageExtractor (tools expert).
Proof.
  split; [exists []; vm_compute; reflexivity|].
  assert (Hz : UnitTestAgent.max_iter_setting empty_key_env = Some 15%Z)
    by (vm_compute; reflexivity).
  destruct (unit_test_tools empty_key_env tt tt (lit "user") 15%Z Hz)
    as (self & expert & H1 & H2 & _ & H3 & _).
  exists self, expert. split; [exact H1|]. split; [exact H2|].
  rewrite H3. vm_compute. discriminate.
Qed.

Lemma agent_budgets_are_integers_witness :
  ∃ (design_self : LowLevelDesignAgent.self_t) analyst planner
    (test_self : UnitTestAgent.self_t) expert,
    outcome (LowLevelDesignAgent.init decimal max_iter_20_env
               tt tt (lit "user")) = inr design_self ∧
    outcome (LowLevelDesignAgent.create_agents design_self)
      = inr (analyst, planner) ∧
    outcome (UnitTestAgent.init max_iter_20_env tt tt (lit "user"))
      = inr test_self ∧
    outcome (UnitTestAgent.create_agents test_self) = inr expert ∧
    max_iter analyst = Some (PInt 20) ∧
    max_iter planner = Some (PInt default_max_iter) ∧
    max_iter expert = Some (PInt 20).
Proof.
  destruct (agent_budgets_are_integers decimal max_iter_20_env tt tt
              (lit "user")) as [Hdesign Htest].
  eexists _, _, _, _, _.
  split; [vm_compute; reflexivity|]. split; [vm_compute; reflexivity|].
  split; [vm_compute; reflexivity|]. split; [vm_compute; reflexivity|].
  match goal with
  | |- max_iter ?a = _ ∧ max_iter ?p = _ ∧ max_iter ?e = _ =>
      destruct (Hdesign _ a p ltac:(vm_compute; reflexivity)
                  ltac:(vm_compute; reflexivity))
        as (z1 & Hz1 & Ha & _ & Hp & _);
      destruct (Htest _ e ltac:(vm_compute; reflexivity)
                  ltac:(vm_compute; reflexivity))
        as (z2 & Hz2 & He & _)
  end.
  vm_compute in Hz1. injection Hz1 as <-.
  vm_compute in Hz2. injection Hz2 as <-.
  split; [exact Ha|]. split; [exact Hp | exact He].
Defined.

Lemma kickoff_unit_test_agent_precondition_witness :
  UnitTestAgent.max_iter_setting max_iter_20_env = Some 20%Z ∧
  ∃ crew setup,
    calls (UnitTestAgent.kickoff_unit_test_agent (λ node : str, node)
             (λ (_ : list unit) _ _ _ _, []) (λ _ _ _, tt)
             UnitTestAgent.idle_executor max_iter_20_env
             (lit "write tests") [] (lit "project-1") [lit "node-1"]
             tt tt (lit "user"))
      = setup ++ Kickoff crew :: calls (UnitTestAgent.idle_executor crew) ∧
    setup_only setup ∧
    outcome (UnitTestAgent.kickoff_unit_test_agent (λ node : str, node)
               (λ (_ : list unit) _ _ _ _, []) (λ _ _ _, tt)
               UnitTestAgent.idle_executor max_iter_20_env
               (lit "write tests") [] (lit "project-1") [lit "node-1"]
               tt tt (lit "user"))
      = match outcome (UnitTestAgent.idle_executor crew) with
        | inl x => inl x
        | inr r => inr (UnitTestAgent.Output r)
        end.
Proof.
  assert (Hz : UnitTestAgent.max_iter_setting max_iter_20_env = Some 20%Z)
    by (vm_compute; reflexivity).
  split; [exact Hz|].
  exact (proj1 (proj2 (kickoff_unit_test_agent_precondition
                         (λ node : str, node)
                         (λ (_ : list unit) _ _ _ _, []) (λ _ _ _, tt)
                         UnitTestAgent.idle_executor max_iter_20_env
                         (lit "write tests") [] (lit "project-1")
                         tt tt (lit "user")))
           (lit "node-1") [] 20%Z Hz).
Defined.

(** C3 fails as stated: with [MAX_ITER=abc] and one node id,
    [kickoff_unit_test_agent] raises the validation error of [Agent(...)];
    the calls it has made by then are set-up calls, and the executor is
    not started on any crew. *)
Lemma bad_max_iter_stops_unit_test_kickoff :
  outcome (UnitTestAgent.kickoff_unit_test_agent (λ node : str, node)
             (λ (_ : list unit) _ _ _ _, []) (λ _ _ _, tt)
             UnitTestAgent.idle_executor bad_max_iter_env
             (lit "write tests") [] (lit "project-1") [lit "node-1"]
             tt tt (lit "user"))
    = inl ValidationError ∧
  ¬ ∃ crew,
      Kickoff crew ∈
        calls (UnitTestAgent.kickoff_unit_test_agent (λ node : str, node)
                 (λ (_ : list unit) _ _ _ _, []) (λ _ _ _, tt)
                 UnitTestAgent.idle_executor bad_max_iter_env
                 (lit "write tests") [] (lit "project-1") [lit "node-1"]
                 tt tt (lit "user")).
Proof.
  split; [vm_compute; reflexivity|].
  intros [crew Hin].
  assert (Hquiet : setup_only
            (calls (UnitTestAgent.kickoff_unit_test_agent
                      (λ node : str, node)
                      (λ (_ : list unit) _ _ _ _, []) (λ _ _ _, tt)
                      UnitTestAgent.idle_executor bad_max_iter_env
                      (lit "write tests") [] (lit "project-1")
                      [lit "node-1"] tt tt (lit "user"))))
    by (vm_compute; repeat constructor).
  unfold setup_only in Hquiet. rewrite Forall_forall in Hquiet.
  specialize (Hquiet _ Hin). discriminate Hquiet.
Qed.

End Scenarios.

(** * Further properties *)

(** ** The streaming loop as a whole *)

Section BridgeSpecFacts.
Import PyStr Bridge BridgeSpec.

Lemma loop_yielded (st : loop_state) (lines : list str) :
  yielded (loop st lines) =
  yielded st ++
  (chunk <$> (if final_answer_streaming st then read_lines lines
              else after_marker (read_lines lines))).
Proof.
  revert st. induction lines as [|line rest IH]; intros st; simpl.
  - destruct (final_answer_streaming st); simpl; by rewrite app_nil_r.
  - destruct (truthy line); simpl.
    + rewrite IH. unfold body.
      destruct (final_answer_streaming st) eqn:Hst;
        destruct (contains marker line) eqn:Hm; simpl;
        rewrite ?Hst; simpl; rewrite <- ?app_assoc; reflexivity.
    + destruct (final_answer_streaming st); simpl; by rewrite app_nil_r.
Qed.

(** X1: for every list of lines, [run] yields the chunks of the lines that
    lie behind the first marker line and in front of the first empty
    read, in their order, and nothing else. *)
Theorem run_is_final_section (lines : list str) :
  run lines = final_section lines.
Proof. unfold run, final_section. by rewrite loop_yielded. Qed.

Lemma loop_only_appends (st : loop_state) (lines : list str) :
  yielded st `prefix_of` yielded (loop st lines).
Proof. rewrite loop_yielded. by eexists. Qed.

Lemma loop_grows (st : loop_state) (l1 l2 : list str) :
  yielded (loop st l1) `prefix_of` yielded (loop st (l1 ++ l2)).
Proof.
  revert st. induction l1 as [|line l1 IH]; intros st; simpl.
  - apply loop_only_appends.
  - destruct (truthy line); simpl; [apply IH | done].
Qed.

(** X2: what has been yielded is never taken back or reordered: the
    chunks yielded for the lines read so far are an initial segment of
    the chunks yielded once more lines have been read. *)
Theorem run_grows (l1 l2 : list str) :
  run l1 `prefix_of` run (l1 ++ l2).
Proof. apply loop_grows. Qed.

Lemma loop_stops_at_empty (st : loop_state) (l1 l2 : list str) :
  loop st (l1 ++ [] :: l2) = loop st l1.
Proof.
  revert st. induction l1 as [|line l1 IH]; intros st; simpl; [done|].
  destruct (truthy line); simpl; [apply IH | done].
Qed.

(** X3: an empty read ends the stream: whatever comes behind it, marker
    lines and final-section lines included, changes nothing in what is
    yielded. *)
Theorem run_stops_at_empty (l1 l2 : list str) :
  run (l1 ++ [] :: l2) = run l1.
Proof. unfold run. by rewrite loop_stops_at_empty. Qed.





Lemma split_lines_concat (cur data : str) :
  concat (split_lines cur data) = cur ++ data.
Proof.
  revert cur. induction data as [|c data IH]; intros cur; simpl.
  - destruct cur; simpl; by rewrite ?app_nil_r.
  - destruct (c =? LF)%N; simpl; rewrite IH; simpl;
      by rewrite <- app_assoc.
Qed.

Lemma split_lines_shape (cur data : str) :
  LF ∉ cur →
  Forall (λ l, ∃ text, (LF ∉ text) ∧ (l = text ++ [LF] ∨ l = text))
         (split_lines cur data).
Proof.
  revert cur. induction data as [|c data IH]; intros cur Hcur; simpl.
  - destruct cur; simpl; [constructor|].
    constructor; [|constructor]. eexists. split; [exact Hcur | by right].
  - destruct (c =? LF)%N eqn:E.
    + apply N.eqb_eq in E as ->. constructor.
      * exists cur. split; [done | by left].
      * apply IH. apply not_elem_of_nil.
    + apply N.eqb_neq in E. apply IH.
      rewrite elem_of_app, list_elem_of_singleton. intros [H | H]; [done|].
      by subst c.
Qed.

(** X5: the lines read from the pipe are a partition of what was written,
    after newline translation: put together again they give that text;
    none is empty; a line feed occurs in a line only as its last
    character. *)
Theorem pipe_lines_partition (writes : list str) :
  concat (pipe_lines writes) = universal_newlines (concat writes) ∧
  Forall (λ l, l ≠ []) (pipe_lines writes) ∧
  Forall (λ l, ∃ text, (LF ∉ text) ∧ (l = text ++ [LF] ∨ l = text))
         (pipe_lines writes).
Proof.
  unfold pipe_lines. split; [apply split_lines_concat|].
  split; [apply split_lines_nonempty|].
  apply split_lines_shape. apply not_elem_of_nil.
Qed.

End BridgeSpecFacts.

(** ** How the agents, tasks and crews are put together *)

(** Finds a call in a list of calls written with [::] and [++]. *)
Ltac find_call :=
  solve [ apply list_elem_of_here
        | apply elem_of_app; right; find_call
        | apply elem_of_app; left; find_call
        | apply list_elem_of_further; find_call ].

Section UnitTestWiring.
Import Py Crewai UnitTestAgent.
Context {Db Llm NodeContext Turn R : Type} {framework : Framework}.
Variable node_id : NodeContext → str.
Variable unit_test_description : list Turn → str → str → value → str → str.
Variable get_large_llm : Db → str → agent_type → Llm.
Variable kickoff_async : Crew Db Llm → Py.M (call Db Llm) R.

Lemma unit_test_run_steps (self : self_t) (project_id : str)
    (node_ids : list NodeContext) (query : str) (chat_history : list Turn)
    (z : Z) :
  validate_max_iter (Some (max_iterations self)) = Some z →
  ∃ expert task crew,
    outcome (create_agents self) = inr expert ∧
    max_iter expert = Some (PInt z) ∧
    agent_llm expert = llm self ∧
    outcome (create_tasks node_id unit_test_description self node_ids
               project_id query chat_history expert) = inr task ∧
    crew = {| agents := [expert]; tasks := [task];
              crew_process := Sequential; crew_verbose := true |} ∧
    agent task = expert ∧
    calls (run node_id unit_test_description kickoff_async
               self project_id node_ids query chat_history)
      = calls (create_agents self) ++
        calls (create_tasks node_id unit_test_description self node_ids
                 project_id query chat_history expert) ++
        [CrewConstructed crew; Kickoff crew] ++
        calls (kickoff_async crew) ∧
    outcome (run node_id unit_test_description kickoff_async
                 self project_id node_ids query chat_history)
      = outcome (kickoff_async crew).
Proof.
  intros Hz.
  destruct (unit_test_create_agents_accepts self z Hz)
    as (expert & Hexpert & Hbudget & Hllm & _).
  exists expert. eexists _, _.
  split; [by rewrite Hexpert|]. split; [exact Hbudget|].
  split; [exact Hllm|]. split; [reflexivity|].
  split; [reflexivity|]. split; [reflexivity|].
  unfold run. rewrite Hexpert. unfold create_tasks. cbn -[join].
  match goal with
  | |- context [kickoff_async ?c] => destruct (kickoff_async c) as [tr [x|r]]
  end; cbn -[join]; rewrite ?app_nil_r; split; reflexivity.
Qed.

(** X6: [UnitTestAgent.run] composes its steps in order.  When
    [Agent(...)] rejects the budget it is given, [run] raises the
    validation error and has made no call.  When it accepts the budget,
    the calls of [run] are those of [create_agents], then those of
    [create_tasks] on the agent just built, then the construction of a
    sequential crew of exactly that agent and that task, then the start
    of the executor on that crew and the executor's own calls; its
    outcome is the executor's. *)
Theorem unit_test_run_composes (self : self_t) (project_id : str)
    (node_ids : list NodeContext) (query : str) (chat_history : list Turn) :
  match validate_max_iter (Some (max_iterations self)) with
  | None =>
      run node_id unit_test_description kickoff_async
          self project_id node_ids query chat_history
      = ([], inl ValidationError)
  | Some z =>
      ∃ expert task crew,
        outcome (create_agents self) = inr expert ∧
        max_iter expert = Some (PInt z) ∧
        outcome (create_tasks node_id unit_test_description self node_ids
                   project_id query chat_history expert) = inr task ∧
        crew = {| agents := [expert]; tasks := [task];
                  crew_process := Sequential; crew_verbose := true |} ∧
        agent task = expert ∧
        calls (run node_id unit_test_description kickoff_async
                   self project_id node_ids query chat_history)
          = calls (create_agents self) ++
            calls (create_tasks node_id unit_test_description self node_ids
                     project_id query chat_history expert) ++
            [CrewConstructed crew; Kickoff crew] ++
            calls (kickoff_async crew) ∧
        outcome (run node_id unit_test_description kickoff_async
                     self project_id node_ids query chat_history)
          = outcome (kickoff_async crew)
  end.
Proof.
  destruct (validate_max_iter (Some (max_iterations self))) as [z|] eqn:Hz.
  - destruct (unit_test_run_steps self project_id node_ids query
                chat_history z Hz)
      as (expert & task & crew & H1 & H2 & _ & H3 & H4 & H5 & H6 & H7).
    exists expert, task, crew. done.
  - by apply unit_test_run_rejects.
Qed.

(** X7: [kickoff_unit_test_agent] does not use its [llm] argument: two
    calls that differ only in it are the same computation, and with a
    non-empty [node_ids] list and a [MAX_ITER] that is unset or accepted
    by [Agent(...)], the executor is started on a crew of which every
    agent, and the agent of every task, runs on the model that the
    provider service gave for the caller. *)
Theorem kickoff_unit_test_agent_uses_provider_llm (env : environ)
    (query : str) (chat_history : list Turn) (project_id : str)
    (node_ids : list NodeContext) (sql_db : Db) (llm1 llm2 : Llm)
    (user_id : str) :
  kickoff_unit_test_agent node_id unit_test_description get_large_llm
    kickoff_async env query chat_history project_id node_ids
    sql_db llm1 user_id
  = kickoff_unit_test_agent node_id unit_test_description get_large_llm
      kickoff_async env query chat_history project_id node_ids
      sql_db llm2 user_id
  ∧
  (∀ node nodes z,
     max_iter_setting env = Some z →
     ∃ crew,
       Kickoff crew ∈
         calls (kickoff_unit_test_agent node_id unit_test_description
                  get_large_llm kickoff_async env query chat_history
                  project_id (node :: nodes) sql_db llm1 user_id) ∧
       agents crew ≠ [] ∧
       tasks crew ≠ [] ∧
       Forall (λ a, agent_llm a = get_large_llm sql_db user_id CREWAI)
              (agents crew) ∧
       Forall (λ t, agent_llm (agent t) = get_large_llm sql_db user_id CREWAI)
              (tasks crew)).
Proof.
  split; [reflexivity|]. intros node nodes z Hz.
  unfold kickoff_unit_test_agent. simpl is_empty. cbv iota.
  set (llm' := get_large_llm sql_db user_id CREWAI).
  pose proof (unit_test_init_outcome env sql_db llm' user_id) as Hinit.
  match type of Hinit with _ = inr ?s => set (self := s) in Hinit end.
  destruct (unit_test_run_steps self project_id (node :: nodes) query
              chat_history z Hz)
    as (expert & task & crew & He & _ & Hllm & Ht & Hcrew & Hagent
        & Hcalls & _).
  exists crew. split; [|split; [|split; [|split]]].
  - rewrite calls_bind. cbn -[init run]. fold llm'.
    rewrite calls_bind, Hinit, calls_bind, Hcalls.
    do 2 apply list_elem_of_further. apply elem_of_app. right.
    apply elem_of_app. left. find_call.
  - by subst crew.
  - by subst crew.
  - subst crew. cbn. constructor; [|constructor]. exact Hllm.
  - subst crew. cbn. constructor; [|constructor].
    rewrite Hagent. exact Hllm.
Qed.

End UnitTestWiring.

Section DesignWiring.
Import Py Crewai LowLevelDesignAgent.
Context {Db Llm : Type} {framework : Framework}.
Variable int_of_str : str → option Z.
Variable analyze_codebase_description : str → str → str.
Variable create_design_plan_description : str → str → str.
Variable stdout_of : Crew Db Llm → list str.
Variable get_large_llm : Db → str → agent_type → Llm.



(** X9: when [MAX_ITER] is set to something that [int] does not accept,
    [LowLevelDesignAgent.__init__] raises [ValueError] before it binds
    any tool, and [create_low_level_design_agent] raises it after asking
    the provider service for the model: no agent, task or crew is
    constructed, the executor is not started, nothing is yielded. *)
Theorem design_agent_rejects_bad_max_iter (env : environ) (text : str)
    (functional_requirements project_id : str)
    (sql_db : Db) (llm : Llm) (user_id : str) :
  env !! lit "MAX_ITER" = Some text →
  int_of_str text = None →
  init int_of_str env sql_db llm user_id = ([], inl ValueError) ∧
  create_low_level_design_agent int_of_str analyze_codebase_description
    create_design_plan_description stdout_of get_large_llm env
    functional_requirements project_id sql_db llm user_id
  = ([ProviderServiceCreated sql_db user_id; LargeLlmRequested CREWAI],
     inl ValueError).
Proof.
  intros Henv Hint.
  assert (Hinit : ∀ l : Llm, init int_of_str env sql_db l user_id
                       = ([], inl ValueError)).
  { intros l. unfold init, getenv_default, py_int.
    rewrite Henv, Hint. reflexivity. }
  split; [apply Hinit|].
  unfold create_low_level_design_agent. cbn -[init run].
  rewrite Hinit. reflexivity.
Qed.


End DesignWiring.

(** ** Tool lists *)

Section ToolFacts.
Import Py Crewai.
Context {Db Llm : Type} {framework : Framework}.
Variable int_of_str : str → option Z.

(** X11: every tool adapter of every agent is bound to the database
    session the agent object was built with, and to the caller's
    [user_id] or, for the file-structure and node-neighbour adapters
    only, to no user at all. *)
Theorem tools_bound_to_caller (env : environ) (sql_db : Db) (llm : Llm)
    (user_id : str) (z budget : Z) :
  LowLevelDesignAgent.max_iter_setting int_of_str env = Some z →
  UnitTestAgent.max_iter_setting env = Some budget →
  ∃ design_self analyst planner test_self expert,
    outcome (LowLevelDesignAgent.init int_of_str env sql_db llm user_id)
      = inr design_self ∧
    outcome (LowLevelDesignAgent.create_agents design_self)
      = inr (analyst, planner) ∧
    outcome (UnitTestAgent.init env sql_db llm user_id) = inr test_self ∧
    outcome (UnitTestAgent.create_agents test_self) = inr expert ∧
    Forall (λ t, bound_db t = sql_db ∧
                 (bound_user t = Some user_id ∨
                  bound_user t = None ∧
                  kind t ∈ [GetCodeFileStructure; GetNodeNeighboursFromNodeId]))
           (tools analyst ++ tools planner) ∧
    Forall (λ t, bound_db t = sql_db ∧ bound_user t = Some user_id)
           (tools expert).
Proof.
  intros Hz Hbudget.
  pose proof (unit_test_init_outcome env sql_db llm user_id) as Hinit.
  match type of Hinit with _ = inr ?s => set (self := s) in Hinit end.
  destruct (unit_test_create_agents_accepts self budget Hbudget)
    as (expert & Hexpert & _ & _ & _ & Htools).
  eexists _, _, _, self, expert.
  split; [rewrite design_init_outcome, Hz; reflexivity|].
  split; [reflexivity|].
  split; [exact Hinit|]. split; [by rewrite Hexpert|].
  rewrite Htools. subst self. cbn.
  destruct (truthy (getenv env (lit "FIRECRAWL_API_KEY"))),
           (truthy (getenv env (lit "GITHUB_APP_ID"))); cbn; split;
    repeat first
      [ apply Forall_nil_2
      | apply Forall_cons_2;
        [ first [ split;
                  [ reflexivity
                  | first [ left; reflexivity
                          | right; split; [reflexivity | find_call] ] ]
                | split; reflexivity ]
        | ] ].
Qed.

(** X12: the tool lists in full, as kinds in order.  The Codebase Analyst
    has its five query tools, then the webpage extractor if
    [FIRECRAWL_API_KEY] is true, then the GitHub tool if [GITHUB_APP_ID]
    is; the Unit Test Expert has its two code tools followed by the same
    optional ones; the Design Planner has the analyst's five tools and the
    node-neighbour tool, and never an optional one. *)
Theorem agent_tool_kinds (env : environ) (sql_db : Db) (llm : Llm)
    (user_id : str) (z budget : Z) :
  LowLevelDesignAgent.max_iter_setting int_of_str env = Some z →
  UnitTestAgent.max_iter_setting env = Some budget →
  ∃ design_self analyst planner test_self expert,
    outcome (LowLevelDesignAgent.init int_of_str env sql_db llm user_id)
      = inr design_self ∧
    outcome (LowLevelDesignAgent.create_agents design_self)
      = inr (analyst, planner) ∧
    outcome (UnitTestAgent.init env sql_db llm user_id) = inr test_self ∧
    outcome (UnitTestAgent.create_agents test_self) = inr expert ∧
    kind <$> tools analyst =
      [GetNodesFromTags; AskKnowledgeGraphQueries; GetCodeFromNodeId;
       GetCodeFromProbableNodeName; GetCodeFileStructure]
      ++ (if truthy (getenv env (lit "FIRECRAWL_API_KEY"))
          then [WebpageExtractor] else [])
      ++ (if truthy (getenv env (lit "GITHUB_APP_ID"))
          then [Github] else []) ∧
    kind <$> tools planner =
      [GetNodesFromTags; AskKnowledgeGraphQueries; GetCodeFromNodeId;
       GetCodeFromProbableNodeName; GetCodeFileStructure;
       GetNodeNeighboursFromNodeId] ∧
    tools planner = take 5 (tools analyst) ++
                    [LowLevelDesignAgent.get_node_neighbours_from_node_id
                       design_self] ∧
    kind <$> tools expert =
      [GetCodeFromNodeId; GetCodeFromProbableNodeName]
      ++ (if truthy (getenv env (lit "FIRECRAWL_API_KEY"))
          then [WebpageExtractor] else [])
      ++ (if truthy (getenv env (lit "GITHUB_APP_ID"))
          then [Github] else []).
Proof.
  intros Hz Hbudget.
  pose proof (unit_test_init_outcome env sql_db llm user_id) as Hinit.
  match type of Hinit with _ = inr ?s => set (self := s) in Hinit end.
  destruct (unit_test_create_agents_accepts self budget Hbudget)
    as (expert & Hexpert & _ & _ & _ & Htools).
  eexists _, _, _, self, expert.
  split; [rewrite design_init_outcome, Hz; reflexivity|].
  split; [reflexivity|].
  split; [exact Hinit|]. split; [by rewrite Hexpert|].
  rewrite Htools. subst self. cbn [UnitTestAgent.get_code_from_node_id
    UnitTestAgent.get_code_from_probable_node_name
    UnitTestAgent.webpage_extractor_tool UnitTestAgent.github_tool].
  destruct (truthy (getenv env (lit "FIRECRAWL_API_KEY"))),
           (truthy (getenv env (lit "GITHUB_APP_ID")));
    repeat split; reflexivity.
Qed.

End ToolFacts.

(** ** The node ids in the task instruction *)

Section NodeIds.
Import Py Crewai UnitTestAgent.
Context {Db Llm NodeContext Turn : Type} {framework : Framework}.
Variable node_id : NodeContext → str.
Variable unit_test_description : list Turn → str → str → value → str → str.

Lemma join_cons (sep p q : str) (rest : list str) :
  join sep (p :: q :: rest) = p ++ sep ++ join sep (q :: rest).
Proof. reflexivity. Qed.

Lemma join_occurs (sep p : str) (parts : list str) :
  p ∈ parts → PyStr.occurs_in p (join sep parts).
Proof.
  induction parts as [|q [|r rest] IH]; intros Hin.
  - by apply elem_of_nil in Hin.
  - apply list_elem_of_singleton in Hin as ->. exists [], []. simpl.
    by rewrite app_nil_r.
  - rewrite join_cons. apply elem_of_cons in Hin as [-> | Hin].
    + exists [], (sep ++ join sep (r :: rest)). reflexivity.
    + destruct (IH Hin) as (a & b & Hab). rewrite Hab.
      exists (q ++ sep ++ a), b. by rewrite <- !app_assoc.
Qed.

Lemma join_length (sep : str) (parts : list str) :
  length (join sep parts) =
  sum_list (length <$> parts) + length sep * (length parts - 1).
Proof.
  induction parts as [|q [|r rest] IH].
  - simpl. lia.
  - simpl. lia.
  - rewrite join_cons, !length_app, IH. simpl. lia.
Qed.

Lemma join_closed_form (sep : str) (parts : list str) :
  join sep parts =
  match parts with
  | [] => []
  | first :: others => first ++ concat ((λ part, sep ++ part) <$> others)
  end.
Proof.
  induction parts as [|p [|q rest] IH].
  - reflexivity.
  - simpl. by rewrite app_nil_r.
  - rewrite join_cons, IH. simpl. by rewrite <- app_assoc.
Qed.

(** X13: [UnitTestAgent.create_tasks] hands every node id to the task
    instruction.  The text it builds from the node ids is the first
    [node.node_id], followed, for each further node in order, by the
    two-character separator and that node's id, and nothing more (the
    empty text for no node); so each id of the list occurs in it in one
    piece.  The task it returns is the one it constructs, for the agent
    it was given. *)
Theorem create_tasks_passes_node_ids (self : @self_t Db Llm)
    (node_ids : list NodeContext) (project_id query : str)
    (history : list Turn) (expert : Agent Db Llm) :
  ∃ task,
    create_tasks node_id unit_test_description self node_ids project_id
      query history expert = ([TaskConstructed task], inr task) ∧
    agent task = expert ∧
    description task =
      unit_test_description history
        (match node_ids with
         | [] => []
         | first :: others =>
             node_id first ++
             concat ((λ node, lit ", " ++ node_id node) <$> others)
         end)
        project_id (max_iterations self) query ∧
    (∀ node, node ∈ node_ids →
       PyStr.occurs_in (node_id node)
         (match node_ids with
          | [] => []
          | first :: others =>
              node_id first ++
              concat ((λ node, lit ", " ++ node_id node) <$> others)
          end)).
Proof.
  assert (Hjoin : join (lit ", ") (node_id <$> node_ids) =
                  match node_ids with
                  | [] => []
                  | first :: others =>
                      node_id first ++
                      concat ((λ node, lit ", " ++ node_id node) <$> others)
                  end).
  { rewrite join_closed_form. destruct node_ids as [|n ns]; [done|].
    simpl. by rewrite <- list_fmap_compose. }
  eexists. split; [reflexivity|]. split; [reflexivity|]. split.
  - cbn [description]. by rewrite Hjoin.
  - intros node Hin. rewrite <- Hjoin. apply join_occurs.
    by apply list_elem_of_fmap_2.
Qed.

End NodeIds.

(** ** Validation against the pydantic models *)

Section ValidationFacts.
Import Schema Responses.
Context {framework : Framework}.

Lemma str_eqb_eq (a b : str) : str_eqb a b = true ↔ a = b.
Proof.
  revert b. induction a as [|x a IH]; intros [|y b]; simpl; try done.
  rewrite andb_true_iff, N.eqb_eq, IH. split.
  - by intros [-> ->].
  - by intros [= -> ->].
Qed.

Lemma dict_get_skip (key : str) (more rest : list (str * json)) :
  Forall (λ kv, kv.1 ≠ key) more →
  dict_get key (more ++ rest) = dict_get key rest.
Proof.
  induction 1 as [|[k v] more Hk _ IH]; simpl; [done|].
  rewrite IH. simpl in Hk.
  destruct (str_eqb k key) eqn:E.
  - apply str_eqb_eq in E. done.
  - by destruct (dict_get key rest).
Qed.

Lemma dict_get_insert (key : str) (front more rest : list (str * json)) :
  Forall (λ kv, kv.1 ≠ key) more →
  dict_get key (front ++ more ++ rest) = dict_get key (front ++ rest).
Proof.
  intros Hmore. induction front as [|[k v] front IH]; simpl.
  - by apply dict_get_skip.
  - by rewrite IH.
Qed.

Lemma field_insert {A} (name : str) (type : json → option A)
    (front more rest : list (str * json)) :
  Forall (λ kv, kv.1 ≠ name) more →
  field name type (front ++ more ++ rest) = field name type (front ++ rest).
Proof. intros H. unfold field. by rewrite dict_get_insert. Qed.

(** X14: keys that [LowLevelDesignPlan] does not declare are ignored:
    wherever in an object entries under other keys than its four fields
    are put, validation gives what it gives without them: the same plan,
    or the same rejection. *)
Theorem validate_plan_ignores_extra_keys
    (front more rest : list (str * json)) :
  Forall (λ kv, kv.1 ∉ [lit "feature_name"; lit "overview";
                        lit "design_steps"; lit "potential_challenges"])
         more →
  validate_plan (JObj (front ++ more ++ rest))
  = validate_plan (JObj (front ++ rest)).
Proof.
  intros Hmore. unfold validate_plan.
  rewrite !field_insert; [reflexivity | ..];
    (eapply Forall_impl; [exact Hmore|]); intros kv Hkv Heq; apply Hkv;
    rewrite Heq, !elem_of_cons; auto.
Qed.

Lemma field_missing {A} (name : str) (type : json → option A)
    (items : list (str * json)) :
  dict_get name items = None → field name type items = None.
Proof. unfold field. by intros ->. Qed.

(** X15: each of the four fields of [LowLevelDesignPlan] is required: an
    object without one of them is rejected, whatever else it holds. *)
Theorem validate_plan_requires_fields (items : list (str * json))
    (name : str) :
  name ∈ [lit "feature_name"; lit "overview"; lit "design_steps";
          lit "potential_challenges"] →
  dict_get name items = None →
  validate_plan (JObj items) = None.
Proof.
  intros Hin Hnone. unfold validate_plan.
  rewrite !elem_of_cons, elem_of_nil in Hin.
  destruct Hin as [-> | [-> | [-> | [-> | []]]]];
    rewrite (field_missing _ _ _ Hnone);
    repeat (match goal with
            | |- context [field ?k ?t items] =>
                destruct (field k t items); simpl
            end);
    reflexivity.
Qed.

(** X16: each of the four fields of [DesignStep] is required: a step
    without one of them is rejected. *)
Theorem validate_step_requires_fields (items : list (str * json))
    (name : str) :
  name ∈ [lit "step_number"; lit "description"; lit "relevant_files";
          lit "code_changes"] →
  dict_get name items = None →
  validate_step (JObj items) = None.
Proof.
  intros Hin Hnone. unfold validate_step.
  rewrite !elem_of_cons, elem_of_nil in Hin.
  destruct Hin as [-> | [-> | [-> | [-> | []]]]];
    rewrite (field_missing _ _ _ Hnone);
    repeat (match goal with
            | |- context [field ?k ?t items] =>
                destruct (field k t items); simpl
            end);
    reflexivity.
Qed.

(** X17: a plan is accepted as a whole or not at all: one step that does
    not validate makes validation of the plan fail. *)
Theorem validate_plan_rejects_bad_step (items : list (str * json))
    (steps : list json) :
  dict_get (lit "design_steps") items = Some (JList steps) →
  Exists (λ step, validate_step step = None) steps →
  validate_plan (JObj items) = None.
Proof.
  intros Hsteps Hbad. unfold validate_plan.
  assert (H : field (lit "design_steps") (as_list validate_step) items = None).
  { unfold field. rewrite Hsteps. simpl. by apply mapM_None. }
  rewrite H.
  repeat (match goal with
          | |- context [field ?k ?t items] =>
              destruct (field k t items); simpl
          end);
    reflexivity.
Qed.

Lemma as_list_strings_inv (items : list json) (l : list str) :
  mapM as_str items = Some l → items = JStr <$> l.
Proof.
  intros H. apply mapM_Some in H.
  induction H as [|j s items l Hj _ IH]; [done|].
  destruct j; try discriminate. injection Hj as ->. simpl. by f_equal.
Qed.

(** X18: what validation returns is what the object holds.  If a value
    validates as plan [p], it is an object whose texts and challenges are
    those of [p] and whose steps validate, one by one and in the same
    order, as the steps of [p]: no step is dropped, added or moved. *)
Theorem validate_plan_sound (j : json) (p : LowLevelDesignPlan) :
  validate_plan j = Some p →
  ∃ items steps,
    j = JObj items ∧
    dict_get (lit "feature_name") items = Some (JStr (feature_name p)) ∧
    dict_get (lit "overview") items = Some (JStr (overview p)) ∧
    dict_get (lit "design_steps") items = Some (JList steps) ∧
    Forall2 (λ step s, validate_step step = Some s) steps (design_steps p) ∧
    dict_get (lit "potential_challenges") items
      = Some (JList (JStr <$> potential_challenges p)).
Proof.
  destruct j as [| | | | |items]; try discriminate.
  unfold validate_plan, field. intros H.
  apply bind_Some in H as (n & Hn & H).
  apply bind_Some in H as (o & Ho & H).
  apply bind_Some in H as (s & Hs & H).
  apply bind_Some in H as (c & Hc & H).
  injection H as <-. simpl.
  apply bind_Some in Hn as ([] & Hn & Hn'); try discriminate.
  apply bind_Some in Ho as ([] & Ho & Ho'); try discriminate.
  apply bind_Some in Hs as ([] & Hs & Hs'); try discriminate.
  apply bind_Some in Hc as ([] & Hc & Hc'); try discriminate.
  injection Hn' as ->. injection Ho' as ->.
  simpl in Hs', Hc'. apply as_list_strings_inv in Hc' as ->.
  apply mapM_Some in Hs'.
  eexists _, _. repeat split; eauto.
Qed.

(** X19: validation against [TestAgentResponse] accepts every response
    whose text and citations have the declared types and returns it
    unchanged: the citations keep their order and their repetitions. *)
Theorem validate_response_accepts_typed_responses (r : TestAgentResponse) :
  validate_response (dump_response r) = Some r.
Proof.
  destruct r as [t c]. unfold validate_response, dump_response, field.
  cbn [response citations].
  change (dict_get (lit "response") _) with (Some (JStr t)).
  change (dict_get (lit "citations") _) with (Some (JList (JStr <$> c))).
  cbn [mbind option_bind as_str].
  rewrite as_list_strings. reflexivity.
Qed.

End ValidationFacts.

(** ** The other endpoints of provider_router.py *)

Section EndpointFacts.
Import Py ProviderRouter ProviderEndpoints.
Context {Db SetProviderRequest Response Llms Provider Preferred : Type}.
Variable controller_set_global_ai_provider :
  @ProviderController Db → str → option str → exn + Response.
Variable controller_list_available_llms :
  @ProviderController Db → exn + Llms.
Variable controller_get_global_ai_provider :
  @ProviderController Db → str → exn + Provider.
Variable controller_get_preferred_llm :
  @ProviderController Db → str → exn + Preferred.
Variable verify_hmac_signature : str → str → bool.

(** X20: when the authenticated user carries no ["user_id"], the three
    session-authenticated endpoints raise [KeyError] for that key and
    never reach a controller. *)
Theorem endpoints_require_user_id (module : module_t)
    (provider_request : SetProviderRequest) (db : Db)
    (user : gmap str str) :
  user !! lit "user_id" = None →
  list_available_llms controller_list_available_llms db user
    = ([], inl (KeyError (lit "user_id"))) ∧
  get_global_ai_provider controller_get_global_ai_provider db user
    = ([], inl (KeyError (lit "user_id"))) ∧
  set_global_ai_provider controller_set_global_ai_provider module
    provider_request db user
    = ([], inl (KeyError (lit "user_id"))).
Proof.
  intros H.
  unfold list_available_llms, get_global_ai_provider,
    set_global_ai_provider, ProviderEndpoints.getitem, ProviderRouter.getitem.
  rewrite H. repeat split.
Qed.

(** X21: the session-authenticated endpoints act for the caller and for
    nobody else.  Each makes exactly one controller call, on a controller
    built for the caller's own ["user_id"] and asking about that same id,
    and returns what the controller gives; two users that agree on
    ["user_id"] are served alike, whatever else they carry. *)
Theorem endpoints_act_for_caller (module : module_t)
    (provider_request : SetProviderRequest) (db : Db)
    (user other : gmap str str) (user_id : str) :
  user !! lit "user_id" = Some user_id →
  other !! lit "user_id" = Some user_id →
  let controller :=
    {| controller_db := db; controller_user_id := user_id |} in
  list_available_llms controller_list_available_llms db user
    = ([ListAvailableLlms controller],
       controller_list_available_llms controller) ∧
  get_global_ai_provider controller_get_global_ai_provider db user
    = ([GetGlobalAiProvider controller user_id],
       controller_get_global_ai_provider controller user_id) ∧
  set_global_ai_provider controller_set_global_ai_provider module
    provider_request db user
    = ([SetGlobalAiProvider controller user_id (litellm_provider module)],
       controller_set_global_ai_provider controller user_id
         (litellm_provider module)) ∧
  list_available_llms controller_list_available_llms db other
    = list_available_llms controller_list_available_llms db user ∧
  get_global_ai_provider controller_get_global_ai_provider db other
    = get_global_ai_provider controller_get_global_ai_provider db user ∧
  set_global_ai_provider controller_set_global_ai_provider module
    provider_request db other
    = set_global_ai_provider controller_set_global_ai_provider module
        provider_request db user.
Proof.
  intros H1 H2.
  unfold list_available_llms, get_global_ai_provider,
    set_global_ai_provider, ProviderEndpoints.getitem, ProviderRouter.getitem.
  rewrite H1, H2. repeat split.
Qed.

(** X22: [get_preferred_llm] reaches the controller only behind the
    signature check.  With a signature that does not verify it raises
    HTTP 401 and makes no controller call; every controller call it makes
    is made for a verified pair, on a controller built for the [user_id]
    of the request and about that same id. *)
Theorem get_preferred_llm_checks_signature (user_id : str) (db : Db)
    (hmac_signature : str) :
  (verify_hmac_signature user_id hmac_signature = false →
   get_preferred_llm controller_get_preferred_llm verify_hmac_signature
     user_id db hmac_signature
   = ([], inl (HTTPException 401 (lit "Unauthorized")))) ∧
  (∀ c, c ∈ (get_preferred_llm controller_get_preferred_llm
               verify_hmac_signature user_id db hmac_signature).1 →
     verify_hmac_signature user_id hmac_signature = true ∧
     c = GetPreferredLlm
           {| controller_db := db; controller_user_id := user_id |} user_id) ∧
  (verify_hmac_signature user_id hmac_signature = true →
   (get_preferred_llm controller_get_preferred_llm verify_hmac_signature
      user_id db hmac_signature).2
   = inr (controller_get_preferred_llm
            {| controller_db := db; controller_user_id := user_id |}
            user_id)).
Proof.
  unfold get_preferred_llm.
  destruct (verify_hmac_signature user_id hmac_signature); simpl.
  - split; [discriminate|]. split; [|done].
    intros c Hc. apply list_elem_of_singleton in Hc. done.
  - split; [done|]. split; [|discriminate].
    intros c Hc. by apply elem_of_nil in Hc.
Qed.

End EndpointFacts.

(** ** The further properties in concrete cases *)

Section MoreScenarios.
Import Py Crewai.
#[local] Existing Instance plain_framework.

Lemma design_agent_rejects_bad_max_iter_witness :
  LowLevelDesignAgent.init decimal bad_max_iter_env tt tt (lit "user")
    = ([], inl ValueError) ∧
  LowLevelDesignAgent.create_low_level_design_agent decimal
    (λ _ _, []) (λ _ _, []) (λ _, []) (λ _ _ _, tt) bad_max_iter_env
    (lit "export to csv") (lit "project-1") tt tt (lit "user")
  = ([ProviderServiceCreated tt (lit "user"); LargeLlmRequested CREWAI],
     inl ValueError).
Proof.
  apply (design_agent_rejects_bad_max_iter decimal (λ _ _, [])
           (λ _ _, []) (λ _, []) (λ _ _ _, tt) bad_max_iter_env (lit "abc")).
  - vm_compute. reflexivity.
  - vm_compute. reflexivity.
Defined.


Lemma tools_bound_to_caller_witness :
  ∃ design_self analyst planner test_self expert,
    outcome (LowLevelDesignAgent.init (λ _, None) credentials_env
               tt tt (lit "user")) = inr design_self ∧
    outcome (LowLevelDesignAgent.create_agents design_self)
      = inr (analyst, planner) ∧
    outcome (UnitTestAgent.init credentials_env tt tt (lit "user"))
      = inr test_self ∧
    outcome (UnitTestAgent.create_agents test_self) = inr expert ∧
    Forall (λ t, bound_db t = tt ∧
                 (bound_user t = Some (lit "user") ∨
                  bound_user t = None ∧
                  kind t ∈ [GetCodeFileStructure; GetNodeNeighboursFromNodeId]))
           (tools analyst ++ tools planner) ∧
    Forall (λ t, bound_db t = tt ∧ bound_user t = Some (lit "user"))
           (tools expert).
Proof.
  apply (tools_bound_to_caller (λ _, None) credentials_env tt tt
           (lit "user") 10%Z 15%Z).
  - reflexivity.
  - vm_compute. reflexivity.
Defined.

Lemma agent_tool_kinds_witness :
  ∃ (design_self : LowLevelDesignAgent.self_t) analyst planner
    (test_self : UnitTestAgent.self_t) expert,
    outcome (LowLevelDesignAgent.init (λ _, None) credentials_env
               tt tt (lit "user")) = inr design_self ∧
    outcome (LowLevelDesignAgent.create_agents design_self)
      = inr (analyst, planner) ∧
    outcome (UnitTestAgent.init credentials_env tt tt (lit "user"))
      = inr test_self ∧
    outcome (UnitTestAgent.create_agents test_self) = inr expert ∧
    kind <$> tools analyst =
      [GetNodesFromTags; AskKnowledgeGraphQueries; GetCodeFromNodeId;
       GetCodeFromProbableNodeName; GetCodeFileStructure;
       WebpageExtractor; Github] ∧
    kind <$> tools expert =
      [GetCodeFromNodeId; GetCodeFromProbableNodeName;
       WebpageExtractor; Github].
Proof.
  assert (Hbudget : UnitTestAgent.max_iter_setting credentials_env
                     = Some 15%Z) by (vm_compute; reflexivity).
  destruct (agent_tool_kinds (λ _, None) credentials_env tt tt
              (lit "user") 10%Z 15%Z eq_refl Hbudget)
    as (ds & a & p & ts & e & H1 & H2 & H3 & H4 & H5 & _ & _ & H6).
  exists ds, a, p, ts, e. repeat split; assumption.
Defined.

Lemma validate_plan_ignores_extra_keys_witness :
  Schema.validate_plan
    (Schema.JObj
       ([(lit "feature_name", Schema.JStr (lit "export"))] ++
        [(lit "reviewer", Schema.JStr (lit "nobody"))] ++
        tail (Responses.items_of
                (Schema.dump_plan Schema.repeated_step_plan))))
  = Schema.validate_plan
      (Schema.JObj
         ([(lit "feature_name", Schema.JStr (lit "export"))] ++
          tail (Responses.items_of
                  (Schema.dump_plan Schema.repeated_step_plan)))).
Proof.
  apply validate_plan_ignores_extra_keys.
  constructor; [|constructor]. simpl.
  rewrite !elem_of_cons, elem_of_nil.
  intros [H | [H | [H | [H | []]]]]; vm_compute in H; discriminate H.
Defined.

Lemma validate_plan_requires_fields_witness :
  Schema.validate_plan
    (Schema.JObj [(lit "feature_name", Schema.JStr (lit "export"))]) = None.
Proof.
  apply (validate_plan_requires_fields _ (lit "overview")).
  - apply list_elem_of_further, list_elem_of_here.
  - reflexivity.
Defined.

Lemma validate_step_requires_fields_witness :
  Schema.validate_step
    (Schema.JObj [(lit "step_number", Schema.JInt 1)]) = None.
Proof.
  apply (validate_step_requires_fields _ (lit "description")).
  - apply list_elem_of_further, list_elem_of_here.
  - reflexivity.
Defined.

Lemma validate_plan_rejects_bad_step_witness :
  Schema.validate_plan
    (Schema.JObj
       [ (lit "feature_name", Schema.JStr (lit "export"));
         (lit "overview", Schema.JStr (lit "add an export endpoint"));
         (lit "design_steps", Schema.JList [Schema.JNull]);
         (lit "potential_challenges", Schema.JList []) ]) = None.
Proof.
  apply (validate_plan_rejects_bad_step _ [Schema.JNull]).
  - reflexivity.
  - constructor. reflexivity.
Defined.

Lemma validate_plan_sound_witness :
  ∃ items steps,
    Schema.dump_plan Schema.repeated_step_plan = Schema.JObj items ∧
    Schema.dict_get (lit "feature_name") items
      = Some (Schema.JStr (Schema.feature_name Schema.repeated_step_plan)) ∧
    Schema.dict_get (lit "overview") items
      = Some (Schema.JStr (Schema.overview Schema.repeated_step_plan)) ∧
    Schema.dict_get (lit "design_steps") items
      = Some (Schema.JList steps) ∧
    Forall2 (λ step s, Schema.validate_step step = Some s) steps
      (Schema.design_steps Schema.repeated_step_plan) ∧
    Schema.dict_get (lit "potential_challenges") items
      = Some (Schema.JList
                (Schema.JStr <$>
                 Schema.potential_challenges Schema.repeated_step_plan)).
Proof.
  apply validate_plan_sound. vm_compute. reflexivity.
Defined.

Lemma endpoints_require_user_id_witness :
  ProviderEndpoints.list_available_llms (Db:=unit) (Llms:=unit)
    (λ _, inr tt) tt ∅
    = ([], inl (KeyError (lit "user_id"))) ∧
  ProviderEndpoints.get_global_ai_provider (Db:=unit) (Provider:=unit)
    (λ _ _, inr tt) tt ∅
    = ([], inl (KeyError (lit "user_id"))) ∧
  ProviderRouter.set_global_ai_provider (Db:=unit)
    (SetProviderRequest:=str) (Response:=unit)
    (λ _ _ _, inr tt) (ProviderRouter.import_module ∅) (lit "openai") tt ∅
    = ([], inl (KeyError (lit "user_id"))).
Proof.
  apply (endpoints_require_user_id (λ _ _ _, inr tt) (λ _, inr tt)
           (λ _ _, inr tt) (ProviderRouter.import_module ∅) (lit "openai")
           tt ∅).
  apply lookup_empty.
Defined.

Lemma endpoints_act_for_caller_witness :
  ProviderEndpoints.get_global_ai_provider (Db:=unit) (Provider:=unit)
    (λ _ _, inr tt) tt
    (<[ lit "email" := lit "a@b.c" ]> {[ lit "user_id" := lit "u1" ]})
  = ProviderEndpoints.get_global_ai_provider (Db:=unit) (Provider:=unit)
      (λ _ _, inr tt) tt {[ lit "user_id" := lit "u1" ]}.
Proof.
  pose proof (endpoints_act_for_caller (Db:=unit) (SetProviderRequest:=str)
                (Response:=unit) (Llms:=unit) (Provider:=unit)
                (λ _ _ _, inr tt) (λ _, inr tt) (λ _ _, inr tt)
                (ProviderRouter.import_module ∅) (lit "openai") tt
                {[ lit "user_id" := lit "u1" ]}
                (<[ lit "email" := lit "a@b.c" ]>
                   {[ lit "user_id" := lit "u1" ]})
                (lit "u1")) as H.
  assert (H1 : ({[ lit "user_id" := lit "u1" ]} : gmap str str)
               !! lit "user_id" = Some (lit "u1"))
    by (vm_compute; reflexivity).
  assert (H2 : (<[ lit "email" := lit "a@b.c" ]>
                  ({[ lit "user_id" := lit "u1" ]} : gmap str str))
               !! lit "user_id" = Some (lit "u1"))
    by (vm_compute; reflexivity).
  exact (proj1 (proj2 (proj2 (proj2 (proj2 (H H1 H2)))))).
Defined.

Lemma get_preferred_llm_checks_signature_witness :
  ProviderEndpoints.get_preferred_llm (Db:=unit) (Preferred:=unit)
    (λ _ _, inr tt) (λ _ _, false) (lit "u1") tt (lit "bad-signature")
  = ([], inl (ProviderEndpoints.HTTPException 401 (lit "Unauthorized"))).
Proof.
  exact (proj1 (get_preferred_llm_checks_signature (Db:=unit)
                  (Preferred:=unit) (λ _ _, inr tt) (λ _ _, false)
                  (lit "u1") tt (lit "bad-signature")) eq_refl).
Defined.

Lemma kickoff_unit_test_agent_uses_provider_llm_witness :
  ∃ crew,
    Kickoff crew ∈
      calls (UnitTestAgent.kickoff_unit_test_agent (λ node : str, node)
               (λ (_ : list unit) _ _ _ _, []) (λ _ _ _, 7)
               UnitTestAgent.idle_executor max_iter_20_env
               (lit "write tests") [] (lit "project-1") [lit "node-1"]
               tt 1 (lit "user")) ∧
    agents crew ≠ [] ∧
    tasks crew ≠ [] ∧
    Forall (λ a, agent_llm a = 7) (agents crew) ∧
    Forall (λ t, agent_llm (agent t) = 7) (tasks crew).
Proof.
  assert (Hz : UnitTestAgent.max_iter_setting max_iter_20_env = Some 20%Z)
    by (vm_compute; reflexivity).
  exact (proj2 (kickoff_unit_test_agent_uses_provider_llm
                  (λ node : str, node) (λ (_ : list unit) _ _ _ _, [])
                  (λ _ _ _, 7) UnitTestAgent.idle_executor max_iter_20_env
                  (lit "write tests") [] (lit "project-1") [lit "node-1"]
                  tt 1 2 (lit "user"))
           (lit "node-1") [] 20%Z Hz).
Defined.

End MoreScenarios.
